(** * Feed synchronisation and schedule coordination of the stock analyzer page

    A shallow embedding of [src/app/page.tsx]: the response normalizer
    ([parseAgentResponse]), the sample data, and the callbacks of the [Page]
    component that mutate the feed, the execution-log view and the cached
    schedule state.  React state is a record; every callback is a function
    from the answers of the remote collaborators, two clock readings and a
    freshly generated id to the next state and the list of remote calls it
    issued. *)

From Stdlib Require Import List String Ascii ZArith QArith Bool Lia DecimalString.
Import ListNotations.
Open Scope string_scope.
Open Scope Z_scope.

(** ** JavaScript values

    The payloads the page receives are typed [unknown]; they come out of JSON
    envelopes, so they are the JSON values plus [undefined] for an absent
    member. *)
Module Js.

#[local] Set Warnings "-register-all".

Inductive JsValue : Type :=
| JUndefined
| JNull
| JBool (b : bool)
| JNumber (q : Q)
| JString (s : string)
| JArray (items : list JsValue)
| JObject (fields : list (string * JsValue)).

Inductive JsType : Type :=
| TUndefined | TBoolean | TNumber | TString | TObject.

(** [typeof v]; [null] and arrays are of type ['object']. *)
Definition typeof (v : JsValue) : JsType :=
  match v with
  | JUndefined => TUndefined
  | JBool _ => TBoolean
  | JNumber _ => TNumber
  | JString _ => TString
  | JNull | JArray _ | JObject _ => TObject
  end.

Definition JsType_eqb (a b : JsType) : bool :=
  match a, b with
  | TUndefined, TUndefined | TBoolean, TBoolean | TNumber, TNumber
  | TString, TString | TObject, TObject => true
  | _, _ => false
  end.

(** Truthiness, as tested by [!v], [a && b] and [if (v)]. *)
Definition truthy (v : JsValue) : bool :=
  match v with
  | JUndefined | JNull => false
  | JBool b => b
  | JNumber q => negb (Qnum q =? 0)
  | JString s => negb (s =? "")%string
  | JArray _ | JObject _ => true
  end.

Fixpoint lookup_field (k : string) (fields : list (string * JsValue)) : JsValue :=
  match fields with
  | [] => JUndefined
  | (k', v) :: rest => if (k' =? k)%string then v else lookup_field k rest
  end.

(** Member access [v?.k] for the member names the page reads ([result],
    [current_price], [price_change], [direction], [bullet_points],
    [timestamp]): an object's own member, and [undefined] on [null], on
    primitives and on arrays, none of which carries a member of these
    names.  An object is an association list whose first binding of a name
    is the member. *)
Definition js_get (v : JsValue) (k : string) : JsValue :=
  match v with
  | JObject fields => lookup_field k fields
  | _ => JUndefined
  end.

(** [Array.isArray(v)] together with the elements when it holds. *)
Definition as_array (v : JsValue) : option (list JsValue) :=
  match v with
  | JArray items => Some items
  | _ => None
  end.

Definition is_plain_object (v : JsValue) : bool :=
  match v with
  | JObject _ => true
  | _ => false
  end.

End Js.
Import Js.

(** ** [Date.prototype.toISOString]

    A time value is a number of milliseconds since the epoch, as returned
    by [Date.now()]; the page only formats clock readings and clock readings
    shifted by a few minutes. *)
Module IsoDate.

Definition digit (n : Z) : string :=
  String (ascii_of_nat (48 + Z.to_nat (n mod 10))) "".

(** The [w] low decimal digits of [n], zero padded. *)
Fixpoint pad (w : nat) (n : Z) : string :=
  match w with
  | O => ""
  | S w' => pad w' (n / 10) ++ digit n
  end.

Definition msPerDay : Z := 86400000.

(** Year, month and day of the proleptic Gregorian calendar for a count of
    days since 1970-01-01. *)
Definition civil_from_days (days : Z) : Z * Z * Z :=
  let z := days + 719468 in
  let era := z / 146097 in
  let doe := z - era * 146097 in
  let yoe := (doe - doe / 1460 + doe / 36524 - doe / 146096) / 365 in
  let doy := doe - (365 * yoe + yoe / 4 - yoe / 100) in
  let mp := (5 * doy + 2) / 153 in
  let d := doy - (153 * mp + 2) / 5 + 1 in
  let m := if mp <? 10 then mp + 3 else mp - 9 in
  let y := yoe + era * 400 + (if m <=? 2 then 1 else 0) in
  (y, m, d).

Definition year_string (y : Z) : string :=
  if (0 <=? y) && (y <=? 9999) then pad 4 y
  else if y <? 0 then "-" ++ pad 6 (- y)
  else "+" ++ pad 6 y.

Definition toISOString (ms : Z) : string :=
  let days := ms / msPerDay in
  let rem := ms mod msPerDay in
  let '(y, m, d) := civil_from_days days in
  year_string y ++ "-" ++ pad 2 m ++ "-" ++ pad 2 d ++ "T"
    ++ pad 2 (rem / 3600000) ++ ":" ++ pad 2 (rem / 60000 mod 60) ++ ":"
    ++ pad 2 (rem / 1000 mod 60) ++ "." ++ pad 3 (rem mod 1000) ++ "Z".

End IsoDate.
Import IsoDate.

(** ** A decoder for JSON texts

    [JSON.parse] belongs to the platform, so the normalizer below takes the
    decoder as a parameter and everything proved about it holds for every
    decoder.  [Json.parse] is the instance at which the model is run on
    concrete texts: it reads the JSON grammar (white space, literals,
    numbers, strings, arrays, objects; a repeated member name keeps its last
    value), except that an escape [\uXXXX] is read only below U+0080. *)
Module Json.

Local Open Scope char_scope.

Definition quote : ascii := ascii_of_nat 34.

(** The string that reads as [text] between two quotation marks. *)
Definition quoted (text : string) : string :=
  String quote (text ++ String quote EmptyString).

Definition is_ws (c : ascii) : bool :=
  (c =? " ") || (c =? "009") || (c =? "010") || (c =? "013").

Fixpoint skip_ws (cs : list ascii) : list ascii :=
  match cs with
  | c :: rest => if is_ws c then skip_ws rest else cs
  | [] => []
  end.

Definition code (c : ascii) : Z := Z.of_nat (nat_of_ascii c).

Definition digit_value (c : ascii) : option Z :=
  if (48 <=? code c)%Z && (code c <=? 57)%Z then Some (code c - 48)%Z else None.

Definition hex_value (c : ascii) : option Z :=
  let n := code c in
  if (48 <=? n)%Z && (n <=? 57)%Z then Some (n - 48)%Z
  else if (65 <=? n)%Z && (n <=? 70)%Z then Some (n - 55)%Z
  else if (97 <=? n)%Z && (n <=? 102)%Z then Some (n - 87)%Z
  else None.

(** A run of decimal digits: its value after [acc], its length, the rest. *)
Fixpoint read_digits (cs : list ascii) (acc : Z) (count : nat)
  : Z * nat * list ascii :=
  match cs with
  | c :: rest =>
      match digit_value c with
      | Some d => read_digits rest (10 * acc + d)%Z (S count)
      | None => (acc, count, cs)
      end
  | [] => (acc, count, [])
  end.

Definition scale (mantissa exponent : Z) : Q :=
  if (0 <=? exponent)%Z then Qmake (mantissa * 10 ^ exponent) 1
  else Qmake mantissa (Z.to_pos (10 ^ (- exponent))).

Definition read_exponent (cs : list ascii) : option (Z * list ascii) :=
  match cs with
  | c :: rest =>
      if (c =? "e") || (c =? "E") then
        let '(neg, rest') :=
          match rest with
          | s :: r => if s =? "-" then (true, r)
                      else if s =? "+" then (false, r) else (false, rest)
          | [] => (false, rest)
          end in
        match read_digits rest' 0 0 with
        | (_, O, _) => None
        | (e, _, r) => Some (if neg then - e else e, r)%Z
        end
      else Some (0%Z, cs)
  | [] => Some (0%Z, cs)
  end.

Definition read_number (cs : list ascii) : option (Q * list ascii) :=
  let '(neg, cs1) :=
    match cs with
    | c :: r => if c =? "-" then (true, r) else (false, cs)
    | [] => (false, cs)
    end in
  let int_part :=
    match cs1 with
    | c :: r => if c =? "0" then Some (0%Z, r)
                else match read_digits cs1 0 0 with
                     | (_, O, _) => None
                     | (n, _, r') => Some (n, r')
                     end
    | [] => None
    end in
  match int_part with
  | None => None
  | Some (n, cs2) =>
      let frac_part :=
        match cs2 with
        | c :: r => if c =? "." then
                      match read_digits r n 0 with
                      | (_, O, _) => None
                      | (m, k, r') => Some (m, Z.of_nat k, r')
                      end
                    else Some (n, 0%Z, cs2)
        | [] => Some (n, 0%Z, cs2)
        end in
      match frac_part with
      | None => None
      | Some (m, k, cs3) =>
          match read_exponent cs3 with
          | None => None
          | Some (e, cs4) =>
              Some (scale (if neg then - m else m) (e - k), cs4)
          end
      end
  end.

Definition escape (c : ascii) : option ascii :=
  if c =? quote then Some quote
  else if c =? "\" then Some "\"
  else if c =? "/" then Some "/"
  else if c =? "b" then Some "008"
  else if c =? "f" then Some "012"
  else if c =? "n" then Some "010"
  else if c =? "r" then Some "013"
  else if c =? "t" then Some "009"
  else None.

Definition unicode_escape (h1 h2 h3 h4 : ascii) : option ascii :=
  match hex_value h1, hex_value h2, hex_value h3, hex_value h4 with
  | Some a, Some b, Some c, Some d =>
      let n := (((a * 16 + b) * 16 + c) * 16 + d)%Z in
      if (n <? 128)%Z then Some (ascii_of_nat (Z.to_nat n)) else None
  | _, _, _, _ => None
  end.

(** The characters of a string after its opening quote, up to the closing
    one; [acc] holds the characters read so far, last first. *)
Fixpoint read_string (cs : list ascii) (acc : list ascii)
  : option (string * list ascii) :=
  match cs with
  | [] => None
  | c :: rest =>
      if c =? quote then Some (string_of_list_ascii (rev acc), rest)
      else if c =? "\" then
        match rest with
        | e :: rest1 =>
            if e =? "u" then
              match rest1 with
              | h1 :: h2 :: h3 :: h4 :: rest2 =>
                  match unicode_escape h1 h2 h3 h4 with
                  | Some u => read_string rest2 (u :: acc)
                  | None => None
                  end
              | _ => None
              end
            else match escape e with
                 | Some u => read_string rest1 (u :: acc)
                 | None => None
                 end
        | [] => None
        end
      else if (code c <? 32)%Z then None
      else read_string rest (c :: acc)
  end.

Fixpoint strip_prefix (prefix cs : list ascii) : option (list ascii) :=
  match prefix, cs with
  | [], _ => Some cs
  | p :: prefix', c :: cs' => if p =? c then strip_prefix prefix' cs' else None
  | _ :: _, [] => None
  end.

(** Assignment to a member: in place when the object has it, else at the
    end. *)
Fixpoint set_member (k : string) (v : JsValue) (fields : list (string * JsValue))
  : list (string * JsValue) :=
  match fields with
  | [] => [(k, v)]
  | (k', v') :: rest =>
      if (k' =? k)%string then (k, v) :: rest
      else (k', v') :: set_member k v rest
  end.

Definition literal (text : string) (v : JsValue) (cs : list ascii)
  : option (JsValue * list ascii) :=
  match strip_prefix (list_ascii_of_string text) cs with
  | Some rest => Some (v, rest)
  | None => None
  end.

Fixpoint read_value (fuel : nat) (cs : list ascii) {struct fuel}
  : option (JsValue * list ascii) :=
  match fuel with
  | O => None
  | S fuel' =>
      match skip_ws cs with
      | [] => None
      | c :: rest =>
          if c =? "n" then literal "null" JNull (c :: rest)
          else if c =? "t" then literal "true" (JBool true) (c :: rest)
          else if c =? "f" then literal "false" (JBool false) (c :: rest)
          else if c =? quote then
            match read_string rest [] with
            | Some (s, r) => Some (JString s, r)
            | None => None
            end
          else if c =? "[" then
            match skip_ws rest with
            | d :: r => if d =? "]" then Some (JArray [], r)
                        else read_items fuel' rest []
            | [] => None
            end
          else if c =? "{" then
            match skip_ws rest with
            | d :: r => if d =? "}" then Some (JObject [], r)
                        else read_members fuel' rest []
            | [] => None
            end
          else
            match read_number (c :: rest) with
            | Some (q, r) => Some (JNumber q, r)
            | None => None
            end
      end
  end

with read_items (fuel : nat) (cs : list ascii) (acc : list JsValue) {struct fuel}
  : option (JsValue * list ascii) :=
  match fuel with
  | O => None
  | S fuel' =>
      match read_value fuel' cs with
      | Some (v, r) =>
          match skip_ws r with
          | d :: r' =>
              if d =? "," then read_items fuel' r' (v :: acc)
              else if d =? "]" then Some (JArray (rev (v :: acc)), r')
              else None
          | [] => None
          end
      | None => None
      end
  end

with read_members (fuel : nat) (cs : list ascii) (acc : list (string * JsValue))
  {struct fuel} : option (JsValue * list ascii) :=
  match fuel with
  | O => None
  | S fuel' =>
      match skip_ws cs with
      | q :: r =>
          if q =? quote then
            match read_string r [] with
            | Some (k, r1) =>
                match skip_ws r1 with
                | colon :: r2 =>
                    if colon =? ":" then
                      match read_value fuel' r2 with
                      | Some (v, r3) =>
                          let acc' := set_member k v acc in
                          match skip_ws r3 with
                          | d :: r4 =>
                              if d =? "," then read_members fuel' r4 acc'
                              else if d =? "}" then Some (JObject acc', r4)
                              else None
                          | [] => None
                          end
                      | None => None
                      end
                    else None
                | [] => None
                end
            | None => None
            end
          else None
      | [] => None
      end
  end.

(** The value of a JSON text; [None] when the text is not one. *)
Definition parse (text : string) : option JsValue :=
  let cs := list_ascii_of_string text in
  match read_value (2 * List.length cs + 2) cs with
  | Some (v, rest) =>
      match skip_ws rest with
      | [] => Some v
      | _ :: _ => None
      end
  | None => None
  end.

End Json.

(** ** Data model *)

Inductive Source : Type := manual | scheduled.

(** [AnalysisEntry] (and [SampleEntry], which has the same members). *)
Record AnalysisEntry : Type := mkEntry {
  id : string;
  currentPrice : string;
  priceChange : string;
  direction : string;
  bulletPoints : list string;
  timestamp : string;
  source : Source
}.

(** [Omit<AnalysisEntry, 'id' | 'source'>], the normalizer's result. *)
Record ParsedResponse : Type := mkParsed {
  p_currentPrice : string;
  p_priceChange : string;
  p_direction : string;
  p_bulletPoints : list string;
  p_timestamp : string
}.

(** [{ id, ...parsed, source }]. *)
Definition make_entry (new_id : string) (p : ParsedResponse) (src : Source)
  : AnalysisEntry :=
  {| id := new_id;
     currentPrice := p_currentPrice p;
     priceChange := p_priceChange p;
     direction := p_direction p;
     bulletPoints := p_bulletPoints p;
     timestamp := p_timestamp p;
     source := src |}.

(** The members of [ExecutionLog] (declared in [@/lib/scheduler]) that the
    page reads. *)
Record ExecutionLog : Type := mkLog {
  log_id : string;
  log_success : bool;
  executed_at : string;
  response_output : JsValue
}.

(** The members of [Schedule] (declared in [@/lib/scheduler]) that the page
    reads. *)
Record Schedule : Type := mkSchedule {
  sched_id : string;
  is_active : bool;
  cron_expression : string;
  timezone : string;
  next_run_time : option string
}.

(** What a promise settles to: a value, or a thrown one.  Of a thrown value
    the page only asks whether it is an [Error], and for its message. *)
Inductive Thrown : Type :=
| ThrownError (message : string)
| ThrownOther.

Inductive Outcome (A : Type) : Type :=
| Resolved (a : A)
| Rejected (e : Thrown).
Arguments Resolved {A} a.
Arguments Rejected {A} e.

(** Result of [getScheduleLogs]; [executions] is [None] when it is not an
    array. *)
Record LogsResult : Type := mkLogsResult {
  logs_success : bool;
  executions : option (list ExecutionLog);
  total : Z
}.

(** Result of [listSchedules]; [schedules] is [None] when it is not an
    array. *)
Record SchedulesResult : Type := mkSchedulesResult {
  list_success : bool;
  schedules : option (list Schedule)
}.

(** Result of [callAIAgent]: [response] is the value of [result.response]
    ([JUndefined] when absent), [error] that of [result.error]. *)
Record AgentResult : Type := mkAgentResult {
  agent_success : bool;
  response : JsValue;
  error : option string
}.

(** Result of [pauseSchedule] and [resumeSchedule]; the page ignores it. *)
Record ToggleAck : Type := mkAck { ack_success : bool }.

(** The calls the page makes to its remote collaborators. *)
Inductive RemoteCall : Type :=
| CallAIAgent (message agent_id : string)
| ListSchedules (agent_id : string)
| GetScheduleLogs (schedule_id : string) (limit : Z)
| PauseSchedule (schedule_id : string)
| ResumeSchedule (schedule_id : string).

Definition AGENT_ID : string := "699c608cb6c78525434dfd6c".
Definition SCHEDULE_ID : string := "699c6093399dfadeac38a2e8".

(** ** Response normalizer *)
Section Normalizer.

(** [JSON.parse]: [None] when it throws. *)
Variable JSON_parse : string -> option JsValue.

(** The value of [parsed] after the first [if] of [parseAgentResponse]:
    [None] when the function has returned [null] by then. *)
Definition decode_payload (data : JsValue) : option JsValue :=
  if negb (truthy data) then None
  else match data with
       | JString s => JSON_parse s
       | _ => if JsType_eqb (typeof data) TObject then Some data else None
       end.

(** [if (parsed?.result && typeof parsed.result === 'object')
       parsed = parsed.result] *)
Definition unwrap_result (parsed : JsValue) : JsValue :=
  let r := js_get parsed "result" in
  if truthy r && JsType_eqb (typeof r) TObject then r else parsed.

Definition string_or (v : JsValue) (default : string) : string :=
  match v with
  | JString s => s
  | _ => default
  end.

Fixpoint filter_strings (items : list JsValue) : list string :=
  match items with
  | [] => []
  | JString s :: rest => s :: filter_strings rest
  | _ :: rest => filter_strings rest
  end.

(** The five member reads that end [parseAgentResponse]; [now] is the
    reading of the clock by [new Date()]. *)
Definition extract_fields (now : Z) (parsed : JsValue) : ParsedResponse :=
  {| p_currentPrice := string_or (js_get parsed "current_price") "N/A";
     p_priceChange := string_or (js_get parsed "price_change") "N/A";
     p_direction := string_or (js_get parsed "direction") "flat";
     p_bulletPoints :=
       match as_array (js_get parsed "bullet_points") with
       | Some items => filter_strings items
       | None => []
       end;
     p_timestamp := string_or (js_get parsed "timestamp") (toISOString now) |}.

(** [parseAgentResponse(data)]; [None] is [null], the unparseable payload. *)
Definition parseAgentResponse (now : Z) (data : JsValue)
  : option ParsedResponse :=
  match decode_payload data with
  | None => None
  | Some parsed => Some (extract_fields now (unwrap_result parsed))
  end.

End Normalizer.

(** The record of defaults: what the normalizer returns when it finds none
    of the optional members. *)
Definition default_response (now : Z) : ParsedResponse :=
  {| p_currentPrice := "N/A";
     p_priceChange := "N/A";
     p_direction := "flat";
     p_bulletPoints := [];
     p_timestamp := toISOString now |}.

(** Label of [DirectionChip]: every direction other than [up] and [down] is
    shown as neutral. *)
Definition DirectionChip_label (direction : string) : string :=
  if (direction =? "up")%string then "Bullish"
  else if (direction =? "down")%string then "Bearish"
  else "Neutral".

(** ** Sample data *)

(** [getSampleData()]; [now] is the reading of [Date.now()]. *)
Definition getSampleData (now : Z) : list AnalysisEntry :=
  [ {| id := "sample-1";
       currentPrice := "$421.35";
       priceChange := "+$4.10 (+0.98%)";
       direction := "up";
       bulletPoints :=
         [ "MSFT shares gained nearly 1% in early trading, building on momentum from strong cloud revenue guidance.";
           "Azure growth rate accelerated to 33% YoY, exceeding analyst expectations of 30%.";
           "Institutional buying pressure remains robust with above-average volume." ];
       timestamp := toISOString (now - 2 * 60 * 1000);
       source := manual |};
    {| id := "sample-2";
       currentPrice := "$417.25";
       priceChange := "-$2.15 (-0.51%)";
       direction := "down";
       bulletPoints :=
         [ "MSFT dipped modestly amid broader tech sector rotation as investors moved toward defensive positions.";
           "Despite the pullback, the stock remains well above its 50-day moving average of $410." ];
       timestamp := toISOString (now - 12 * 60 * 1000);
       source := scheduled |};
    {| id := "sample-3";
       currentPrice := "$419.40";
       priceChange := "+$0.05 (+0.01%)";
       direction := "flat";
       bulletPoints :=
         [ "MSFT traded essentially flat as the market awaits key CPI data tomorrow.";
           "Options activity suggests traders are positioning for a breakout above $425 resistance.";
           "AI infrastructure capex guidance remains a key focus for upcoming earnings call." ];
       timestamp := toISOString (now - 22 * 60 * 1000);
       source := scheduled |} ].

(** ** State of the [Page] component

    The [useState] cells and the [lastLogIdRef] ref that the callbacks
    below read or write. *)
Record PageState : Type := mkState {
  feed : list AnalysisEntry;
  isAnalyzing : bool;
  analysisError : option string;
  showSampleData : bool;
  scheduleActive : option bool;
  scheduleData : option Schedule;
  toggling : bool;
  logs : list ExecutionLog;
  logsTotal : Z;
  newUpdateBanner : bool;
  lastUpdated : option string;
  lastLogIdRef : option string
}.

(** The state at mount. *)
Definition initial_state : PageState :=
  {| feed := [];
     isAnalyzing := false;
     analysisError := None;
     showSampleData := false;
     scheduleActive := None;
     scheduleData := None;
     toggling := false;
     logs := [];
     logsTotal := 0;
     newUpdateBanner := false;
     lastUpdated := None;
     lastLogIdRef := None |}.

Definition setFeed (f : list AnalysisEntry -> list AnalysisEntry) (st : PageState) :=
  mkState (f (feed st)) (isAnalyzing st) (analysisError st) (showSampleData st)
    (scheduleActive st) (scheduleData st) (toggling st) (logs st) (logsTotal st)
    (newUpdateBanner st) (lastUpdated st) (lastLogIdRef st).

Definition setIsAnalyzing (b : bool) (st : PageState) :=
  mkState (feed st) b (analysisError st) (showSampleData st)
    (scheduleActive st) (scheduleData st) (toggling st) (logs st) (logsTotal st)
    (newUpdateBanner st) (lastUpdated st) (lastLogIdRef st).

Definition setAnalysisError (e : option string) (st : PageState) :=
  mkState (feed st) (isAnalyzing st) e (showSampleData st)
    (scheduleActive st) (scheduleData st) (toggling st) (logs st) (logsTotal st)
    (newUpdateBanner st) (lastUpdated st) (lastLogIdRef st).

Definition setShowSampleData (f : bool -> bool) (st : PageState) :=
  mkState (feed st) (isAnalyzing st) (analysisError st) (f (showSampleData st))
    (scheduleActive st) (scheduleData st) (toggling st) (logs st) (logsTotal st)
    (newUpdateBanner st) (lastUpdated st) (lastLogIdRef st).

Definition setScheduleActive (b : bool) (st : PageState) :=
  mkState (feed st) (isAnalyzing st) (analysisError st) (showSampleData st)
    (Some b) (scheduleData st) (toggling st) (logs st) (logsTotal st)
    (newUpdateBanner st) (lastUpdated st) (lastLogIdRef st).

Definition setScheduleData (s : Schedule) (st : PageState) :=
  mkState (feed st) (isAnalyzing st) (analysisError st) (showSampleData st)
    (scheduleActive st) (Some s) (toggling st) (logs st) (logsTotal st)
    (newUpdateBanner st) (lastUpdated st) (lastLogIdRef st).

Definition setToggling (b : bool) (st : PageState) :=
  mkState (feed st) (isAnalyzing st) (analysisError st) (showSampleData st)
    (scheduleActive st) (scheduleData st) b (logs st) (logsTotal st)
    (newUpdateBanner st) (lastUpdated st) (lastLogIdRef st).

Definition setLogs (l : list ExecutionLog) (st : PageState) :=
  mkState (feed st) (isAnalyzing st) (analysisError st) (showSampleData st)
    (scheduleActive st) (scheduleData st) (toggling st) l (logsTotal st)
    (newUpdateBanner st) (lastUpdated st) (lastLogIdRef st).

Definition setLogsTotal (n : Z) (st : PageState) :=
  mkState (feed st) (isAnalyzing st) (analysisError st) (showSampleData st)
    (scheduleActive st) (scheduleData st) (toggling st) (logs st) n
    (newUpdateBanner st) (lastUpdated st) (lastLogIdRef st).

Definition setNewUpdateBanner (b : bool) (st : PageState) :=
  mkState (feed st) (isAnalyzing st) (analysisError st) (showSampleData st)
    (scheduleActive st) (scheduleData st) (toggling st) (logs st) (logsTotal st)
    b (lastUpdated st) (lastLogIdRef st).

Definition setLastUpdated (t : string) (st : PageState) :=
  mkState (feed st) (isAnalyzing st) (analysisError st) (showSampleData st)
    (scheduleActive st) (scheduleData st) (toggling st) (logs st) (logsTotal st)
    (newUpdateBanner st) (Some t) (lastLogIdRef st).

(** [lastLogIdRef.current = v] *)
Definition setLastLogIdRef (v : string) (st : PageState) :=
  mkState (feed st) (isAnalyzing st) (analysisError st) (showSampleData st)
    (scheduleActive st) (scheduleData st) (toggling st) (logs st) (logsTotal st)
    (newUpdateBanner st) (lastUpdated st) (Some v).

(** What a callback reads from the runtime besides the answers of the
    remote collaborators: the clock as read by the normalizer and by
    [setLastUpdated], the id [generateId()] returns, and the scroll offset
    of the feed container ([None] when the ref is empty). *)
Record Env : Type := mkEnv {
  parse_clock : Z;
  update_clock : Z;
  fresh_id : string;
  scroll_top : option Q
}.

(** [displayFeed], computed at each render; [now] is the clock as read by
    [getSampleData]. *)
Definition displayFeed (now : Z) (st : PageState) : list AnalysisEntry :=
  if showSampleData st && (Z.of_nat (List.length (feed st)) =? 0)
  then getSampleData now
  else feed st.

(** The test of the [setFeed] updater in [pollForNewResults]. *)
Definition isDuplicate (entry : AnalysisEntry) (prev : list AnalysisEntry) : bool :=
  existsb (fun e => (timestamp e =? timestamp entry)%string
                    && (currentPrice e =? currentPrice entry)%string) prev.

Definition prepend_unless_duplicate (entry : AnalysisEntry)
  (prev : list AnalysisEntry) : list AnalysisEntry :=
  if isDuplicate entry prev then prev else entry :: prev.

(** [result.schedules.find((s) => s.id === SCHEDULE_ID) || result.schedules[0]] *)
Definition select_schedule (l : list Schedule) : option Schedule :=
  match find (fun s => (sched_id s =? SCHEDULE_ID)%string) l with
  | Some s => Some s
  | None => hd_error l
  end.

Definition analysis_prompt : string :=
  "Analyze the current MSFT stock price, direction, and key trends. Return current_price, price_change, direction, bullet_points, and timestamp.".

Definition or_default (e : option string) (default : string) : string :=
  match e with
  | Some m => if (m =? "")%string then default else m
  | None => default
  end.

Section Callbacks.

Variable JSON_parse : string -> option JsValue.

(** The state updates of [loadScheduleStatus] once [listSchedules] has
    settled to [o]. *)
Definition loadScheduleStatus_settled (o : Outcome SchedulesResult)
  (st : PageState) : PageState :=
  match o with
  | Rejected _ => st
  | Resolved result =>
      match list_success result, schedules result with
      | true, Some l =>
          match select_schedule l with
          | Some sched => setScheduleActive (is_active sched) (setScheduleData sched st)
          | None => st
          end
      | _, _ => st
      end
  end.

Definition loadScheduleStatus (o : Outcome SchedulesResult) (st : PageState)
  : PageState * list RemoteCall :=
  (loadScheduleStatus_settled o st, [ListSchedules AGENT_ID]).

Definition loadLogs (o : Outcome LogsResult) (st : PageState)
  : PageState * list RemoteCall :=
  (match o with
   | Rejected _ => st
   | Resolved result =>
       match logs_success result, executions result with
       | true, Some l => setLogsTotal (total result) (setLogs l st)
       | _, _ => st
       end
   end, [GetScheduleLogs SCHEDULE_ID 5]).

(** The body of [if (parsed)] in [pollForNewResults]. *)
Definition insert_scheduled (env : Env) (parsed : ParsedResponse)
  (st : PageState) : PageState :=
  let entry := make_entry (fresh_id env) parsed scheduled in
  let st1 := setFeed (prepend_unless_duplicate entry) st in
  let st2 := setLastUpdated (toISOString (update_clock env)) st1 in
  match scroll_top env with
  | Some top => if negb (Qle_bool top 100) then setNewUpdateBanner true st2 else st2
  | None => st2
  end.

(** One tick of the poller: [pollForNewResults] with [getScheduleLogs]
    settling to [o]. *)
Definition pollForNewResults (o : Outcome LogsResult) (env : Env)
  (st : PageState) : PageState * list RemoteCall :=
  (match o with
   | Rejected _ => st
   | Resolved result =>
       match logs_success result, executions result with
       | true, Some (latestLog :: rest) =>
           if (log_id latestLog =? "")%string then st
           else
             match lastLogIdRef st with
             | None => setLastLogIdRef (log_id latestLog) st
             | Some seen =>
                 if (seen =? log_id latestLog)%string then st
                 else
                   let st1 := setLastLogIdRef (log_id latestLog) st in
                   let st2 :=
                     if log_success latestLog && truthy (response_output latestLog)
                     then match parseAgentResponse JSON_parse (parse_clock env)
                                  (response_output latestLog) with
                          | Some parsed => insert_scheduled env parsed st1
                          | None => st1
                          end
                     else st1 in
                   setLogsTotal (total result) (setLogs (latestLog :: rest) st2)
             end
       | _, _ => st
       end
   end, [GetScheduleLogs SCHEDULE_ID 3]).

(** The message [runAnalysis] sets when the run does not insert a record. *)
Definition thrown_message (e : Thrown) : string :=
  match e with
  | ThrownError message => message
  | ThrownOther => "Network error during analysis."
  end.

(** [runAnalysis] with [callAIAgent] settling to [o]. *)
Definition runAnalysis (o : Outcome AgentResult) (env : Env) (st : PageState)
  : PageState * list RemoteCall :=
  let st0 := setAnalysisError None (setIsAnalyzing true st) in
  let st1 :=
    match o with
    | Resolved result =>
        if agent_success result then
          match parseAgentResponse JSON_parse (parse_clock env)
                  (js_get (response result) "result") with
          | Some parsed =>
              let entry := make_entry (fresh_id env) parsed manual in
              setLastUpdated (toISOString (update_clock env))
                (setFeed (fun prev => entry :: prev) st0)
          | None =>
              setAnalysisError
                (Some "Received unexpected response format from agent.") st0
          end
        else
          setAnalysisError
            (Some (or_default (error result) "Analysis failed. Please try again."))
            st0
    | Rejected e => setAnalysisError (Some (thrown_message e)) st0
    end in
  (setIsAnalyzing false st1, [CallAIAgent analysis_prompt AGENT_ID]).

(** [handleToggleSchedule]: [toggled] is what [pauseSchedule] or
    [resumeSchedule] settles to, [listed] what [listSchedules] settles to
    when [loadScheduleStatus] is reached. *)
Definition handleToggleSchedule (toggled : Outcome ToggleAck)
  (listed : Outcome SchedulesResult) (st : PageState)
  : PageState * list RemoteCall :=
  match scheduleData st with
  | None => (st, [])
  | Some data =>
      let st0 := setToggling true st in
      let call := if is_active data then PauseSchedule (sched_id data)
                  else ResumeSchedule (sched_id data) in
      match toggled with
      | Resolved _ =>
          let '(st1, calls) := loadScheduleStatus listed st0 in
          (setToggling false st1, call :: calls)
      | Rejected _ => (setToggling false st0, [call])
      end
  end.

(** [scrollToTop] and the two inline handlers of the page. *)
Definition scrollToTop (st : PageState) : PageState := setNewUpdateBanner false st.
Definition toggleSampleData (st : PageState) : PageState := setShowSampleData negb st.
Definition dismissError (st : PageState) : PageState := setAnalysisError None st.

(** ** Sessions

    What can happen to a mounted page; each event carries what the runtime
    and the remote collaborators answer.  A callback suspends only while it
    awaits a remote answer and writes the feed through updater functions;
    each callback is taken as one step, at the moment its last answer
    arrives. *)
Inductive Event : Type :=
| StatusLoaded (o : Outcome SchedulesResult)
| LogsLoaded (o : Outcome LogsResult)
| PollTick (o : Outcome LogsResult) (env : Env)
| ManualRun (o : Outcome AgentResult) (env : Env)
| Toggle (toggled : Outcome ToggleAck) (listed : Outcome SchedulesResult)
| SampleSwitch
| ErrorDismissed
| BannerClicked.

Definition step (st : PageState) (ev : Event) : PageState :=
  match ev with
  | StatusLoaded o => fst (loadScheduleStatus o st)
  | LogsLoaded o => fst (loadLogs o st)
  | PollTick o env => fst (pollForNewResults o env st)
  | ManualRun o env => fst (runAnalysis o env st)
  | Toggle toggled listed => fst (handleToggleSchedule toggled listed st)
  | SampleSwitch => toggleSampleData st
  | ErrorDismissed => dismissError st
  | BannerClicked => scrollToTop st
  end.

Definition run (st : PageState) (evs : list Event) : PageState :=
  fold_left step evs st.

(** The states of a session: those a run of events reaches from mount. *)
Definition reachable (st : PageState) : Prop :=
  exists evs, st = run initial_state evs.

End Callbacks.

(** The feed's key of a record, and the invariant that no two records of
    a feed share it. *)
Definition dedup_key (e : AnalysisEntry) : string * string :=
  (timestamp e, currentPrice e).

Definition feed_deduplicated (f : list AnalysisEntry) : Prop :=
  NoDup (map dedup_key f).

(** The optional members of a payload, and the test that a value has none
    of them. *)
Definition optional_fields : list string :=
  ["current_price"; "price_change"; "direction"; "bullet_points"; "timestamp"].

Definition is_undefined (v : JsValue) : bool :=
  match v with
  | JUndefined => true
  | _ => false
  end.

Definition lacks_optional_fields (v : JsValue) : bool :=
  forallb (fun k => is_undefined (js_get v k)) optional_fields.

(** What a status fetch reports about the tracked schedule: [None] when it
    throws, reports no success, returns no array or lists no schedule. *)
Definition reported_active (o : Outcome SchedulesResult) : option bool :=
  match o with
  | Rejected _ => None
  | Resolved result =>
      if list_success result then
        match schedules result with
        | Some l => option_map is_active (select_schedule l)
        | None => None
        end
      else None
  end.

(** The manual runs that insert no record: the agent call throws, reports
    no success, or returns a payload the normalizer reports unparseable. *)
Definition manual_run_failed (JSON_parse : string -> option JsValue)
  (env : Env) (o : Outcome AgentResult) : bool :=
  match o with
  | Rejected _ => true
  | Resolved result =>
      if agent_success result then
        match parseAgentResponse JSON_parse (parse_clock env)
                (js_get (response result) "result") with
        | Some _ => false
        | None => true
        end
      else true
  end.

(** The message of each of these runs. *)
Definition failure_message (o : Outcome AgentResult) : string :=
  match o with
  | Rejected e => thrown_message e
  | Resolved result =>
      if agent_success result
      then "Received unexpected response format from agent."
      else or_default (error result) "Analysis failed. Please try again."
  end.


(** ** Concrete sessions

    The inputs at which the model is run below. *)
Module Scenario.

(** A runtime whose clock reads [clock], whose next generated id is
    [new_id] and whose feed container is scrolled to the top. *)
Definition env_at (clock : Z) (new_id : string) : Env :=
  {| parse_clock := clock;
     update_clock := clock;
     fresh_id := new_id;
     scroll_top := Some (0 # 1) |}.

Definition quote_object : JsValue :=
  JObject [ ("current_price", JString "$421.35");
            ("price_change", JString "+$4.10 (+0.98%)");
            ("direction", JString "up");
            ("bullet_points", JArray [JString "Azure growth accelerated."]);
            ("timestamp", JString "2024-05-01T14:30:00.000Z") ].

(** The agent answers a manual run with [quote_object]. *)
Definition quote_answer : AgentResult :=
  {| agent_success := true;
     response := JObject [("result", quote_object)];
     error := None |}.

(** The JSON text of an object with the price and timestamp of
    [quote_object]. *)
Definition quote_text : string :=
  "{" ++ Json.quoted "current_price" ++ ": " ++ Json.quoted "$421.35" ++ ", "
      ++ Json.quoted "timestamp" ++ ": " ++ Json.quoted "2024-05-01T14:30:00.000Z"
      ++ "}".

Definition log_entry (entry_id : string) (ok : bool) (output : JsValue)
  : ExecutionLog :=
  {| log_id := entry_id;
     log_success := ok;
     executed_at := "2024-05-01T14:30:05.000Z";
     response_output := output |}.

Definition page (entries : list ExecutionLog) (count : Z) : LogsResult :=
  {| logs_success := true; executions := Some entries; total := count |}.

Definition e1 : ExecutionLog := log_entry "e1" true (JString quote_text).
Definition e2 : ExecutionLog := log_entry "e2" true (JString quote_text).

(** An execution whose output is no JSON text. *)
Definition e2_garbled : ExecutionLog :=
  log_entry "e2" true (JString "upstream timeout").

Definition tracked (active : bool) : Schedule :=
  {| sched_id := SCHEDULE_ID;
     is_active := active;
     cron_expression := "*/10 * * * *";
     timezone := "America/New_York";
     next_run_time := None |}.

Definition listing (active : bool) : Outcome SchedulesResult :=
  Resolved {| list_success := true; schedules := Some [tracked active] |}.

Definition refused : Outcome AgentResult :=
  Resolved {| agent_success := false;
              response := JUndefined;
              error := Some "Agent is busy" |}.

(** A session: a first tick, a manual run, then a tick that brings an
    execution with the price and timestamp of the manual run. *)
Definition session : list Event :=
  [ PollTick (Resolved (page [e1] 1)) (env_at 1714573800000 "a");
    ManualRun (Resolved quote_answer) (env_at 1714573860000 "b");
    PollTick (Resolved (page [e2; e1] 2)) (env_at 1714573920000 "c") ].

Definition quote_key : string * string :=
  ("2024-05-01T14:30:00.000Z", "$421.35").

Definition second_run : Event :=
  ManualRun (Resolved quote_answer) (env_at 1714573980000 "d").

End Scenario.

(** ** Reading a timestamp back

    [new Date(text).getTime()] belongs to the platform, so [relativeTime]
    below takes it as a parameter.  [IsoText.getTime] is the instance at
    which the model is run on concrete texts: it reads the texts that
    [toISOString] writes for the years 0000 to 9999 and no other text. *)
Module IsoText.

Definition days_from_civil (y m d : Z) : Z :=
  let y' := if m <=? 2 then y - 1 else y in
  let era := y' / 400 in
  let yoe := y' - era * 400 in
  let mp := if 2 <? m then m - 3 else m + 9 in
  let doy := (153 * mp + 2) / 5 + d - 1 in
  let doe := yoe * 365 + yoe / 4 - yoe / 100 + doy in
  era * 146097 + doe - 719468.

(** The number written by the [count] characters of [cs] from [start] on;
    a character that is no digit counts as 0. *)
Definition field (cs : list ascii) (start count : nat) : Z :=
  fold_left (fun acc c => 10 * acc + match Json.digit_value c with
                                     | Some d => d
                                     | None => 0
                                     end)
    (firstn count (skipn start cs)) 0.

Definition getTime (text : string) : option Z :=
  let cs := list_ascii_of_string text in
  let t := days_from_civil (field cs 0 4) (field cs 5 2) (field cs 8 2) * msPerDay
           + field cs 11 2 * 3600000 + field cs 14 2 * 60000
           + field cs 17 2 * 1000 + field cs 20 3 in
  if (toISOString t =? text)%string then Some t else None.

End IsoText.

(** ** Rendering *)

(** [String(n)] for an integer [n], as the template literals of
    [relativeTime] write it (integers below 10^21 in magnitude, which
    covers every count of seconds between two time values). *)
Definition show_int (n : Z) : string :=
  NilZero.string_of_int (Z.to_int n).

Section RelativeTime.

(** [new Date(text).getTime()]: [None] when it is [NaN]. *)
Variable Date_getTime : string -> option Z.

(** [relativeTime(isoString)]; [now] is the reading of [Date.now()].  On a
    text that is no date every comparison with [NaN] fails, and the last
    template writes [NaN]. *)
Definition relativeTime (now : Z) (isoString : string) : string :=
  if (isoString =? "")%string then ""
  else match Date_getTime isoString with
       | None => "NaNd ago"
       | Some t =>
           let diff := now - t in
           let seconds := diff / 1000 in
           if seconds <? 0 then "just now"
           else if seconds <? 60 then show_int seconds ++ "s ago"
           else
             let minutes := seconds / 60 in
             if minutes <? 60 then show_int minutes ++ "m ago"
             else
               let hours := minutes / 60 in
               if hours <? 24 then show_int hours ++ "h ago"
               else
                 let days := hours / 24 in
                 show_int days ++ "d ago"
       end.

End RelativeTime.

(** Colour of [DirectionIcon]. *)
Definition DirectionIcon_color (direction : string) : string :=
  if (direction =? "up")%string then "#22b87a"
  else if (direction =? "down")%string then "#d93a3a"
  else "#7f8694".

(** [color] of [DirectionChip]. *)
Definition DirectionChip_color (direction : string) : string :=
  if (direction =? "up")%string then "#22b87a"
  else if (direction =? "down")%string then "#d93a3a"
  else "#7f8694".

(** Colour of the price change in [AnalysisCard]. *)
Definition AnalysisCard_change_color (entry : AnalysisEntry) : string :=
  if (direction entry =? "up")%string then "#22b87a"
  else if (direction entry =? "down")%string then "#d93a3a"
  else "#7f8694".

(** [latestEntry]: [None] is [null]. *)
Definition latestEntry (now : Z) (st : PageState) : option AnalysisEntry :=
  match displayFeed now st with
  | [] => None
  | first :: _ => Some first
  end.

(** Colour of the ticker badge in the header; the badge is rendered when
    [latestEntry] is not [null]. *)
Definition ticker_color (now : Z) (st : PageState) : option string :=
  match latestEntry now st with
  | Some e =>
      Some (if (direction e =? "up")%string then "#22b87a"
            else if (direction e =? "down")%string then "#d93a3a"
            else "#7f8694")
  | None => None
  end.

(** [checked] of the scheduler switch: [scheduleActive === true]. *)
Definition switch_checked (st : PageState) : bool :=
  match scheduleActive st with
  | Some true => true
  | _ => false
  end.

(** [disabled] of the scheduler switch and of the toggle button:
    [toggling || scheduleActive === null]. *)
Definition toggle_disabled (st : PageState) : bool :=
  toggling st || match scheduleActive st with
                 | None => true
                 | Some _ => false
                 end.

(** [scheduleActive ? 'Pause Schedule' : 'Resume Schedule'] *)
Definition toggle_button_label (st : PageState) : string :=
  match scheduleActive st with
  | Some true => "Pause Schedule"
  | _ => "Resume Schedule"
  end.

(** The error banner is rendered when [analysisError] is truthy. *)
Definition error_banner_shown (st : PageState) : bool :=
  match analysisError st with
  | Some m => negb (m =? "")%string
  | None => false
  end.

(** The events of a session that are no manual run. *)
Definition is_manual_run (ev : Event) : bool :=
  match ev with
  | ManualRun _ _ => true
  | _ => false
  end.

Definition is_string (v : JsValue) : bool := JsType_eqb (typeof v) TString.

(** The events that call [setFeed]. *)
Definition may_insert (ev : Event) : bool :=
  match ev with
  | PollTick _ _ | ManualRun _ _ => true
  | _ => false
  end.

Definition is_poll_tick (ev : Event) : bool :=
  match ev with
  | PollTick _ _ => true
  | _ => false
  end.

(** The remote calls that pause or resume a schedule. *)
Definition is_toggle_call (c : RemoteCall) : bool :=
  match c with
  | PauseSchedule _ | ResumeSchedule _ => true
  | _ => false
  end.

(** Further inputs at which the model is run below. *)
Module FurtherScenario.

Import Scenario.

(** The record the normalizer makes of [quote_text]. *)
Definition quote_parsed : ParsedResponse :=
  {| p_currentPrice := "$421.35";
     p_priceChange := "N/A";
     p_direction := "flat";
     p_bulletPoints := [];
     p_timestamp := "2024-05-01T14:30:00.000Z" |}.

(** A runtime whose feed container is scrolled 250 pixels down. *)
Definition scrolled_env (clock : Z) (new_id : string) : Env :=
  {| parse_clock := clock;
     update_clock := clock;
     fresh_id := new_id;
     scroll_top := Some (250 # 1) |}.

(** The state after a first tick that fetched [e1]. *)
Definition after_first_tick : PageState :=
  run Json.parse initial_state
    [PollTick (Resolved (page [e1] 1)) (env_at 1714573800000 "a")].

(** The state after a first tick and a manual run answered with
    [quote_answer]. *)
Definition after_manual_run : PageState :=
  run Json.parse initial_state
    [ PollTick (Resolved (page [e1] 1)) (env_at 1714573800000 "a");
      ManualRun (Resolved quote_answer) (env_at 1714573860000 "b") ].

Definition e2_failed : ExecutionLog := log_entry "e2" false JUndefined.

Definition other_schedule : Schedule :=
  {| sched_id := "5f0c1d2e3a4b5c6d7e8f9a0b";
     is_active := false;
     cron_expression := "0 9 * * 1-5";
     timezone := "UTC";
     next_run_time := Some "2024-05-02T09:00:00.000Z" |}.

Definition wrapped_payload : list (string * JsValue) :=
  [ ("current_price", JString "$1.00");
    ("result", JObject [ ("current_price", JString "$2.00");
                         ("bullet_points",
                          JArray [JString "a"; JNumber (3 # 1); JString "b"; JNull]);
                         ("timestamp", JString "yesterday") ]) ].

Definition sideways_entry : AnalysisEntry :=
  {| id := "x";
     currentPrice := "$1.00";
     priceChange := "N/A";
     direction := "sideways";
     bulletPoints := [];
     timestamp := "2024-05-01T14:30:00.000Z";
     source := scheduled |}.

End FurtherScenario.

(** * Properties *)

(** ** The normalizer *)
Section NormalizerProperties.

Variable JSON_parse : string -> option JsValue.

Lemma js_get_not_object (v : JsValue) (k : string) :
  is_plain_object v = false -> js_get v k = JUndefined.
Proof. destruct v; simpl; auto; discriminate. Qed.

Lemma unwrap_result_not_object (v : JsValue) :
  is_plain_object v = false -> unwrap_result v = v.
Proof.
  intros H. unfold unwrap_result. rewrite (js_get_not_object v "result" H).
  reflexivity.
Qed.

Lemma extract_fields_defaults (now : Z) (v : JsValue) :
  lacks_optional_fields v = true -> extract_fields now v = default_response now.
Proof.
  unfold lacks_optional_fields, optional_fields. simpl.
  rewrite !andb_true_iff. intros (H1 & H2 & H3 & H4 & H5 & _).
  unfold extract_fields, default_response.
  destruct (js_get v "current_price"); try discriminate.
  destruct (js_get v "price_change"); try discriminate.
  destruct (js_get v "direction"); try discriminate.
  destruct (js_get v "bullet_points"); try discriminate.
  destruct (js_get v "timestamp"); try discriminate.
  reflexivity.
Qed.

Lemma lacks_optional_fields_not_object (v : JsValue) :
  is_plain_object v = false -> lacks_optional_fields v = true.
Proof.
  intros H. unfold lacks_optional_fields, optional_fields. simpl.
  rewrite !(js_get_not_object v _ H). reflexivity.
Qed.

Lemma decode_payload_object (fields : list (string * JsValue)) :
  decode_payload JSON_parse (JObject fields) = Some (JObject fields).
Proof. reflexivity. Qed.

(** An object payload is never unparseable. *)
Lemma parseAgentResponse_object (now : Z) (fields : list (string * JsValue)) :
  parseAgentResponse JSON_parse now (JObject fields)
  = Some (extract_fields now (unwrap_result (JObject fields))).
Proof. reflexivity. Qed.

(** C3, as amended: for every structured payload, the direction of the
    record is the string its direction member holds, kept as it is whether
    or not it is one of up, down and flat; it is flat only when the member
    is absent or holds no string.  The member is read from the nested
    result object when the payload has one.  A direction other than up and
    down is displayed like flat. *)
Theorem C3_direction_kept_verbatim :
  forall (now : Z) (fields : list (string * JsValue)),
    let member := js_get (unwrap_result (JObject fields)) "direction" in
    exists p,
      parseAgentResponse JSON_parse now (JObject fields) = Some p
      /\ (forall d, member = JString d -> p_direction p = d)
      /\ (typeof member <> TString -> p_direction p = "flat")
      /\ (p_direction p <> "up" -> p_direction p <> "down" ->
          DirectionChip_label (p_direction p) = DirectionChip_label "flat").
Proof.
  intros now fields member.
  exists (extract_fields now (unwrap_result (JObject fields))).
  split; [apply parseAgentResponse_object|].
  simpl. fold member. repeat split.
  - intros d Hd. rewrite Hd. reflexivity.
  - intros Hty. destruct member; simpl in *; congruence.
  - intros Hup Hdown. unfold DirectionChip_label.
    apply String.eqb_neq in Hup, Hdown. rewrite Hup, Hdown. reflexivity.
Qed.

(** C6: for every payload that is a structured object, normalization
    succeeds, and when the object the members are read from (the payload,
    or its nested result object when it has one) contains none of
    current_price, price_change, direction, bullet_points and timestamp,
    the record has currentPrice and priceChange N/A, direction flat, no
    bullet points and the time of normalization as timestamp. *)
Theorem C6_defaults_when_fields_absent :
  forall (now : Z) (fields : list (string * JsValue)),
    parseAgentResponse JSON_parse now (JObject fields) <> None
    /\ (lacks_optional_fields (unwrap_result (JObject fields)) = true ->
        parseAgentResponse JSON_parse now (JObject fields)
        = Some (default_response now)).
Proof.
  intros now fields. rewrite parseAgentResponse_object. split.
  - discriminate.
  - intros H. rewrite (extract_fields_defaults now _ H). reflexivity.
Qed.

(** C10: a string payload that decodes to a value other than an object,
    and an array payload, are not unparseable: normalization returns the
    record of defaults.  The one fact used about the decoder is that the
    empty text is no JSON text. *)
Theorem C10_non_object_data_gives_defaults :
  JSON_parse "" = None ->
  forall now : Z,
    (forall s v, JSON_parse s = Some v -> is_plain_object v = false ->
       parseAgentResponse JSON_parse now (JString s) = Some (default_response now))
    /\ (forall items,
          parseAgentResponse JSON_parse now (JArray items)
          = Some (default_response now)).
Proof.
  intros Hempty now. split.
  - intros s v Hs Hv.
    assert (Hne : (s =? "")%string = false).
    { apply String.eqb_neq. intros ->. congruence. }
    unfold parseAgentResponse, decode_payload. simpl. rewrite Hne. simpl.
    rewrite Hs, (unwrap_result_not_object v Hv).
    rewrite (extract_fields_defaults now v (lacks_optional_fields_not_object v Hv)).
    reflexivity.
  - intros items. reflexivity.
Qed.

End NormalizerProperties.

(** ** The callbacks *)
Section CallbackProperties.

Variable JSON_parse : string -> option JsValue.

#[local] Abbreviation poll := (pollForNewResults JSON_parse).
#[local] Abbreviation normalize := (parseAgentResponse JSON_parse).

Ltac case_split :=
  repeat match goal with
         | |- context [match ?x with _ => _ end] => destruct x eqn:?
         end.

Lemma insert_scheduled_feed (env : Env) (p : ParsedResponse) (st : PageState) :
  feed (insert_scheduled env p st)
  = prepend_unless_duplicate (make_entry (fresh_id env) p scheduled) (feed st).
Proof. unfold insert_scheduled. case_split; reflexivity. Qed.

Lemma insert_scheduled_lastLogIdRef (env : Env) (p : ParsedResponse) (st : PageState) :
  lastLogIdRef (insert_scheduled env p st) = lastLogIdRef st.
Proof. unfold insert_scheduled. case_split; reflexivity. Qed.

Lemma insert_scheduled_logs (env : Env) (p : ParsedResponse) (st : PageState) :
  logs (insert_scheduled env p st) = logs st
  /\ logsTotal (insert_scheduled env p st) = logsTotal st.
Proof. unfold insert_scheduled. case_split; split; reflexivity. Qed.

(** A tick whose fetch fails changes nothing. *)
Lemma poll_fetch_failed (o : Outcome LogsResult) (env : Env) (st : PageState) :
  match o with
  | Rejected _ => True
  | Resolved r => logs_success r = false \/ executions r = None
                  \/ executions r = Some []
  end ->
  fst (poll o env st) = st.
Proof.
  destruct o as [r|e]; simpl; [|reflexivity].
  intros [H | [H | H]]; rewrite H; [reflexivity | | ];
    destruct (logs_success r); reflexivity.
Qed.

(** The feed after a tick: untouched, or the updater applied to a record
    made from the latest entry's payload. *)
Lemma poll_feed (o : Outcome LogsResult) (env : Env) (st : PageState) :
  feed (fst (poll o env st)) = feed st
  \/ exists p, feed (fst (poll o env st))
               = prepend_unless_duplicate
                   (make_entry (fresh_id env) p scheduled) (feed st).
Proof.
  unfold pollForNewResults. simpl. case_split; simpl; auto.
  right. eexists. rewrite insert_scheduled_feed. reflexivity.
Qed.

(** C8: on a first tick (no execution id seen yet) that fetches a page
    whose first entry has an id, that id becomes the last seen one and the
    feed is left as it was, whatever the success flags and payloads of the
    entries. *)
Theorem C8_first_tick_records_id_only :
  forall (env : Env) (st : PageState) (r : LogsResult)
         (latest : ExecutionLog) (rest : list ExecutionLog),
    lastLogIdRef st = None ->
    logs_success r = true ->
    executions r = Some (latest :: rest) ->
    log_id latest <> "" ->
    let st' := fst (poll (Resolved r) env st) in
    lastLogIdRef st' = Some (log_id latest) /\ feed st' = feed st.
Proof.
  intros env st r latest rest Hseen Hok Hpage Hid. simpl.
  rewrite Hok, Hpage, Hseen.
  apply String.eqb_neq in Hid. rewrite Hid. split; reflexivity.
Qed.

(** C4, as amended: on a tick that fetches a non-empty page whose first
    entry has an id, the cached log view and its total are replaced by the
    page and its reported total when an earlier id is known and differs
    from that id, whether or not the tick produces an analysis record; on
    the first tick since mount, and on a tick whose first entry is the one
    seen last, they are left as they were. *)
Theorem C4_log_view_refreshed_on_new_entry :
  forall (env : Env) (st : PageState) (r : LogsResult)
         (latest : ExecutionLog) (rest : list ExecutionLog),
    logs_success r = true ->
    executions r = Some (latest :: rest) ->
    log_id latest <> "" ->
    let st' := fst (poll (Resolved r) env st) in
    (forall seen, lastLogIdRef st = Some seen -> seen <> log_id latest ->
       logs st' = latest :: rest /\ logsTotal st' = total r)
    /\ (lastLogIdRef st = None \/ lastLogIdRef st = Some (log_id latest) ->
        logs st' = logs st /\ logsTotal st' = logsTotal st).
Proof.
  intros env st r latest rest Hok Hpage Hid. simpl.
  rewrite Hok, Hpage. apply String.eqb_neq in Hid. rewrite Hid. split.
  - intros seen Hseen Hne. rewrite Hseen.
    apply String.eqb_neq in Hne. rewrite Hne. split; reflexivity.
  - intros [Hseen | Hseen]; rewrite Hseen.
    + split; reflexivity.
    + rewrite String.eqb_refl. split; reflexivity.
Qed.

(** C2, as amended: a tick whose fetch throws, reports no success or
    returns no array leaves the whole state as it was, the last seen
    execution id included, so the next tick starts from the same id; a
    tick whose latest entry carries a payload the normalizer reports
    unparseable inserts nothing into the feed, and the last seen id is
    that entry's id after it. *)
Theorem C2_failed_tick_last_seen :
  forall (env : Env) (st : PageState),
    (forall e, fst (poll (Rejected e) env st) = st)
    /\ (forall r, logs_success r = false \/ executions r = None ->
          fst (poll (Resolved r) env st) = st)
    /\ (forall r latest rest,
          logs_success r = true ->
          executions r = Some (latest :: rest) ->
          log_id latest <> "" ->
          normalize (parse_clock env) (response_output latest) = None ->
          let st' := fst (poll (Resolved r) env st) in
          lastLogIdRef st' = Some (log_id latest) /\ feed st' = feed st).
Proof.
  intros env st. split; [reflexivity|]. split.
  - intros r H. apply (poll_fetch_failed (Resolved r)). tauto.
  - intros r latest rest Hok Hpage Hid Hnone. simpl.
    rewrite Hok, Hpage, Hnone. apply String.eqb_neq in Hid. rewrite Hid.
    destruct (lastLogIdRef st) as [seen|] eqn:Hseen.
    + destruct (seen =? log_id latest)%string eqn:Heq.
      * apply String.eqb_eq in Heq. subst seen. split; [assumption|reflexivity].
      * destruct (log_success latest && truthy (response_output latest));
          split; reflexivity.
    + split; reflexivity.
Qed.

(** The cached flag after a status fetch has settled. *)
Lemma loadScheduleStatus_settled_active (o : Outcome SchedulesResult) (st : PageState) :
  scheduleActive (loadScheduleStatus_settled o st)
  = match reported_active o with
    | Some b => Some b
    | None => scheduleActive st
    end.
Proof.
  unfold loadScheduleStatus_settled, reported_active.
  destruct o as [r|e]; [|reflexivity].
  destruct (list_success r); [|reflexivity].
  destruct (schedules r) as [l|]; [|reflexivity].
  destruct (select_schedule l); reflexivity.
Qed.

(** C5, as amended: a toggle run whose pause or resume call returns,
    whatever it acknowledges, ends with the cached active flag equal to
    what the status fetch that follows reports, or to its value before the
    run when that fetch fails or lists no schedule; a run whose pause or
    resume call throws makes no status fetch and leaves the cached flag as
    it was.  In both cases the flag is never set by the toggle itself. *)
Theorem C5_toggle_reconciles_when_call_returns :
  forall (st : PageState) (data : Schedule) (listed : Outcome SchedulesResult),
    scheduleData st = Some data ->
    (forall ack,
       let res := handleToggleSchedule (Resolved ack) listed st in
       scheduleActive (fst res)
       = match reported_active listed with
         | Some b => Some b
         | None => scheduleActive st
         end
       /\ In (ListSchedules AGENT_ID) (snd res))
    /\ (forall e,
          let res := handleToggleSchedule (Rejected e) listed st in
          scheduleActive (fst res) = scheduleActive st
          /\ ~ In (ListSchedules AGENT_ID) (snd res)).
Proof.
  intros st data listed Hdata. unfold handleToggleSchedule. rewrite Hdata.
  split.
  - intros ack. simpl. split; [|auto].
    apply (loadScheduleStatus_settled_active listed (setToggling true st)).
  - intros e. simpl. split; [reflexivity|].
    intros [H | []]. destruct (is_active data); discriminate.
Qed.

Lemma or_default_nonempty (e : option string) (default : string) :
  default <> "" -> or_default e default <> "".
Proof.
  intros H. unfold or_default. destruct e as [m|]; [|exact H].
  destruct (m =? "")%string eqn:Hm; [exact H|].
  apply String.eqb_neq. exact Hm.
Qed.

(** A manual run whose agent call throws, reports no success, or returns
    a payload the normalizer reports unparseable sets one error message
    (the thrown error's own message or the network-error text, the
    reported error or the analysis-failed text, the unexpected-format
    text), leaves the feed as it was and calls the agent once.  The
    message is not empty, unless the call throws an error whose own message
    is. *)
Lemma failed_manual_run_sets_message :
  forall (env : Env) (st : PageState) (o : Outcome AgentResult),
    manual_run_failed JSON_parse env o = true ->
    let res := runAnalysis JSON_parse o env st in
    analysisError (fst res) = Some (failure_message o)
    /\ feed (fst res) = feed st
    /\ snd res = [CallAIAgent analysis_prompt AGENT_ID]
    /\ (o <> Rejected (ThrownError "") -> failure_message o <> "").
Proof.
  intros env st o Hfail. unfold runAnalysis, manual_run_failed, failure_message in *.
  destruct o as [r|e]; simpl.
  - destruct (agent_success r); simpl in *.
    + destruct (normalize (parse_clock env) (js_get (response r) "result"));
        [discriminate|]. repeat split. discriminate.
    + repeat split. intros _. apply or_default_nonempty. discriminate.
  - repeat split. intros Hne. destruct e as [m|]; simpl; [|discriminate].
    intros ->. apply Hne. reflexivity.
Qed.

(** The updater of the poll path keeps the feed free of duplicates. *)
Lemma isDuplicate_false (entry : AnalysisEntry) (prev : list AnalysisEntry) :
  isDuplicate entry prev = false -> ~ In (dedup_key entry) (map dedup_key prev).
Proof.
  induction prev as [|e prev IH]; simpl; [tauto|].
  intros H. apply orb_false_iff in H. destruct H as [He Hprev].
  intros [Heq | Hin]; [|exact (IH Hprev Hin)].
  unfold dedup_key in Heq. injection Heq as Ht Hp.
  rewrite Ht, Hp, !String.eqb_refl in He. discriminate.
Qed.

Lemma prepend_unless_duplicate_deduplicated (entry : AnalysisEntry)
  (prev : list AnalysisEntry) :
  feed_deduplicated prev -> feed_deduplicated (prepend_unless_duplicate entry prev).
Proof.
  unfold prepend_unless_duplicate, feed_deduplicated. intros H.
  destruct (isDuplicate entry prev) eqn:Hdup; [assumption|].
  simpl. constructor; [apply isDuplicate_false; assumption | assumption].
Qed.

Lemma isDuplicate_true (entry : AnalysisEntry) (prev : list AnalysisEntry) :
  In (dedup_key entry) (map dedup_key prev) -> isDuplicate entry prev = true.
Proof.
  destruct (isDuplicate entry prev) eqn:H; [reflexivity|].
  intros Hin. destruct (isDuplicate_false entry prev H Hin).
Qed.

(** The updater of the poll path is a no-op on a record whose key the feed
    holds. *)
Lemma prepend_unless_duplicate_noop (entry : AnalysisEntry)
  (prev : list AnalysisEntry) :
  In (dedup_key entry) (map dedup_key prev) ->
  prepend_unless_duplicate entry prev = prev.
Proof.
  intros Hin. unfold prepend_unless_duplicate.
  rewrite (isDuplicate_true entry prev Hin). reflexivity.
Qed.

(** The scheduled-poll path keeps the dedup invariant. *)
Lemma poll_keeps_feed_deduplicated (o : Outcome LogsResult) (env : Env)
  (st : PageState) :
  feed_deduplicated (feed st) -> feed_deduplicated (feed (fst (poll o env st))).
Proof.
  intros H. destruct (poll_feed o env st) as [-> | [p ->]]; [assumption|].
  apply prepend_unless_duplicate_deduplicated. assumption.
Qed.

(** The manual-trigger path prepends the record it makes, whatever the feed
    holds. *)
Lemma runAnalysis_prepends (result : AgentResult) (env : Env) (st : PageState)
  (p : ParsedResponse) :
  agent_success result = true ->
  normalize (parse_clock env) (js_get (response result) "result") = Some p ->
  feed (fst (runAnalysis JSON_parse (Resolved result) env st))
  = make_entry (fresh_id env) p manual :: feed st.
Proof.
  intros Hok Hp. unfold runAnalysis. simpl. rewrite Hok, Hp. reflexivity.
Qed.

(** No event takes a record out of the feed. *)
Lemma step_feed (st : PageState) (ev : Event) :
  feed (step JSON_parse st ev) = feed st
  \/ exists entry, feed (step JSON_parse st ev) = entry :: feed st.
Proof.
  destruct ev as [o|o|o env|o env|toggled listed| | |]; simpl; auto.
  - left. unfold loadScheduleStatus_settled. case_split; reflexivity.
  - left. case_split; reflexivity.
  - destruct (poll_feed o env st) as [H | [p H]]; simpl in H; rewrite H; auto.
    unfold prepend_unless_duplicate. case_split; eauto.
  - case_split; simpl; eauto.
  - left. unfold handleToggleSchedule, loadScheduleStatus, loadScheduleStatus_settled.
    case_split; reflexivity.
Qed.





End CallbackProperties.

(** ** The model at concrete sessions *)
Import Scenario.

(** C1, at the failing input: after a manual run, a poll tick that brings
    an execution with the same timestamp and price leaves the feed as it
    was, while a second manual run with the same answer is prepended, so
    that a reachable feed holds two records of one key. *)
Theorem C1_manual_run_repeats_key :
  let st := run Json.parse initial_state session in
  let st' := step Json.parse st second_run in
  map dedup_key (feed st) = [quote_key]
  /\ map dedup_key (feed st') = [quote_key; quote_key]
  /\ reachable Json.parse st'
  /\ ~ feed_deduplicated (feed st').
Proof.
  intros st st'.
  assert (H2 : map dedup_key (feed st') = [quote_key; quote_key])
    by (vm_compute; reflexivity).
  split; [vm_compute; reflexivity|]. split; [exact H2|]. split.
  - exists (session ++ [second_run])%list. vm_compute. reflexivity.
  - unfold feed_deduplicated. rewrite H2. intros Hnodup.
    inversion Hnodup as [|x l Hnotin _]. apply Hnotin. left. reflexivity.
Qed.

(** C2, as stated, fails: after a first tick has recorded e1, a tick
    whose latest entry e2 carries a payload the normalizer reports
    unparseable ends with e2 as the last seen id. *)
Lemma C2_unparseable_payload_advances_last_seen :
  let st := run Json.parse initial_state
              [PollTick (Resolved (page [e1] 1)) (env_at 1714573800000 "a")] in
  let st' := fst (pollForNewResults Json.parse
                    (Resolved (page [e2_garbled; e1] 2))
                    (env_at 1714573860000 "b") st) in
  parseAgentResponse Json.parse 1714573860000 (response_output e2_garbled) = None
  /\ lastLogIdRef st = Some "e1"
  /\ lastLogIdRef st' = Some "e2"
  /\ lastLogIdRef st' <> lastLogIdRef st.
Proof.
  intros st st'.
  split; [vm_compute; reflexivity|].
  split; [vm_compute; reflexivity|].
  split; [vm_compute; reflexivity|].
  intros H. vm_compute in H. discriminate.
Qed.

Lemma C2_witness :
  let r := page [e2_garbled; e1] 2 in
  let env := env_at 1714573860000 "b" in
  let st := run Json.parse initial_state
              [PollTick (Resolved (page [e1] 1)) (env_at 1714573800000 "a")] in
  fst (pollForNewResults Json.parse (Rejected (ThrownError "Failed to fetch")) env st)
  = st
  /\ lastLogIdRef (fst (pollForNewResults Json.parse (Resolved r) env st))
     = Some "e2"
  /\ feed (fst (pollForNewResults Json.parse (Resolved r) env st)) = feed st.
Proof.
  intros r env st.
  destruct (C2_failed_tick_last_seen Json.parse env st) as (Hthrown & _ & Hgarbled).
  split; [apply Hthrown|].
  apply (Hgarbled r e2_garbled [e1]).
  - reflexivity.
  - reflexivity.
  - discriminate.
  - vm_compute. reflexivity.
Defined.

(** C3, as stated, fails: a payload whose direction member holds the
    string sideways is normalized to a record of direction sideways. *)
Lemma C3_unrecognized_direction_not_flat :
  exists p,
    parseAgentResponse Json.parse 0 (JObject [("direction", JString "sideways")])
    = Some p
    /\ p_direction p = "sideways"
    /\ p_direction p <> "flat".
Proof.
  eexists. split; [reflexivity|]. split; [reflexivity|]. discriminate.
Qed.

Lemma C3_witness :
  exists p,
    parseAgentResponse Json.parse 0 (JObject [("direction", JString "sideways")])
    = Some p
    /\ p_direction p = "sideways"
    /\ DirectionChip_label (p_direction p) = DirectionChip_label "flat".
Proof.
  destruct (C3_direction_kept_verbatim Json.parse 0
              [("direction", JString "sideways")]) as (p & Hp & Hkept & _ & Hlabel).
  exists p. split; [exact Hp|].
  assert (Hd : p_direction p = "sideways") by (apply Hkept; reflexivity).
  split; [exact Hd|].
  apply Hlabel; rewrite Hd; discriminate.
Defined.

(** C4, as stated, fails: the first tick of a session fetches a page of
    two entries and leaves the cached log view empty, and so does a second
    tick that fetches the same page. *)
Lemma C4_first_tick_leaves_log_view :
  let r := page [e2; e1] 2 in
  let st1 := fst (pollForNewResults Json.parse (Resolved r)
                    (env_at 1714573800000 "a") initial_state) in
  let st2 := fst (pollForNewResults Json.parse (Resolved r)
                    (env_at 1714573860000 "b") st1) in
  executions r = Some [e2; e1]
  /\ logs st1 = [] /\ logsTotal st1 = 0 /\ logs st1 <> [e2; e1]
  /\ logs st2 = [] /\ logsTotal st2 = 0 /\ logsTotal st2 <> total r.
Proof.
  intros r st1 st2. repeat split; try (vm_compute; reflexivity);
    intros H; vm_compute in H; discriminate.
Qed.

Lemma C4_witness :
  let r := page [e2; e1] 2 in
  let st := run Json.parse initial_state
              [PollTick (Resolved (page [e1] 1)) (env_at 1714573800000 "a")] in
  let st' := fst (pollForNewResults Json.parse (Resolved r)
                    (env_at 1714573860000 "b") st) in
  lastLogIdRef st = Some "e1"
  /\ logs st' = [e2; e1] /\ logsTotal st' = 2.
Proof.
  intros r st st'. split; [vm_compute; reflexivity|].
  assert (Hid : log_id e2 <> "") by discriminate.
  destruct (C4_log_view_refreshed_on_new_entry Json.parse
              (env_at 1714573860000 "b") st r e2 [e1] eq_refl eq_refl Hid)
    as [Hnew _].
  apply (Hnew "e1"); [vm_compute; reflexivity | discriminate].
Defined.

(** C5, as stated, fails: with the schedule cached as active, a toggle
    whose pause call throws makes no status fetch; the cached flag stays
    active although the status fetch would report the schedule paused. *)
Lemma C5_thrown_toggle_skips_status_fetch :
  let st := run Json.parse initial_state [StatusLoaded (listing true)] in
  let res := handleToggleSchedule (Rejected (ThrownError "Failed to fetch"))
               (listing false) st in
  scheduleActive st = Some true
  /\ reported_active (listing false) = Some false
  /\ snd res = [PauseSchedule SCHEDULE_ID]
  /\ scheduleActive (fst res) = Some true
  /\ scheduleActive (fst res) <> reported_active (listing false).
Proof.
  intros st res. repeat split; try (vm_compute; reflexivity).
  intros H. vm_compute in H. discriminate.
Qed.

Lemma C5_witness :
  let st := run Json.parse initial_state [StatusLoaded (listing true)] in
  scheduleData st = Some (tracked true)
  /\ scheduleActive
       (fst (handleToggleSchedule (Resolved {| ack_success := false |})
               (listing false) st)) = Some false
  /\ scheduleActive
       (fst (handleToggleSchedule (Rejected ThrownOther) (listing false) st))
     = Some true.
Proof.
  intros st.
  assert (Hdata : scheduleData st = Some (tracked true)) by reflexivity.
  destruct (C5_toggle_reconciles_when_call_returns st (tracked true)
              (listing false) Hdata) as [Hreturns Hthrows].
  split; [exact Hdata|]. split.
  - exact (proj1 (Hreturns {| ack_success := false |})).
  - exact (proj1 (Hthrows ThrownOther)).
Defined.

Lemma C6_witness :
  lacks_optional_fields (unwrap_result (JObject [("note", JString "n/a")])) = true
  /\ parseAgentResponse Json.parse 1714573800000 (JObject [("note", JString "n/a")])
     = Some {| p_currentPrice := "N/A";
               p_priceChange := "N/A";
               p_direction := "flat";
               p_bulletPoints := [];
               p_timestamp := "2024-05-01T14:30:00.000Z" |}.
Proof.
  split; [reflexivity|].
  exact (proj2 (C6_defaults_when_fields_absent Json.parse 1714573800000
                  [("note", JString "n/a")]) eq_refl).
Defined.

Lemma failed_manual_run_refused :
  let env := env_at 1714573860000 "b" in
  let st := run Json.parse initial_state session in
  let res := runAnalysis Json.parse refused env st in
  manual_run_failed Json.parse env refused = true
  /\ analysisError (fst res) = Some "Agent is busy"
  /\ feed (fst res) = feed st
  /\ snd res = [CallAIAgent analysis_prompt AGENT_ID].
Proof.
  intros env st res. split; [reflexivity|].
  destruct (failed_manual_run_sets_message Json.parse env st refused eq_refl)
    as (Herror & Hfeed & Hcalls & _).
  exact (conj Herror (conj Hfeed Hcalls)).
Qed.

(** C7, at the failing input: when the agent call throws an error whose
    message is the empty text, the run stores the empty text as its error
    message, which the error banner does not render, so no message is
    shown although the run failed and inserted nothing; the branch for a
    reported failure, given the empty text as the reported error, falls
    back to the analysis-failed text, which the banner renders. *)
Theorem C7_empty_error_message_not_shown :
  forall (JSON_parse : string -> option JsValue) (env : Env) (st : PageState),
    let thrown := runAnalysis JSON_parse (Rejected (ThrownError "")) env st in
    let reported :=
      runAnalysis JSON_parse
        (Resolved {| agent_success := false;
                     response := JUndefined;
                     error := Some "" |}) env st in
    manual_run_failed JSON_parse env (Rejected (ThrownError "")) = true
    /\ analysisError (fst thrown) = Some ""
    /\ error_banner_shown (fst thrown) = false
    /\ feed (fst thrown) = feed st
    /\ snd thrown = [CallAIAgent analysis_prompt AGENT_ID]
    /\ analysisError (fst reported) = Some "Analysis failed. Please try again."
    /\ error_banner_shown (fst reported) = true.
Proof.
  intros JSON_parse env st thrown reported. repeat split.
Qed.

Lemma C8_witness :
  let r := page [log_entry "e2" true (JString quote_text);
                 log_entry "e1" false JUndefined] 2 in
  let st' := fst (pollForNewResults Json.parse (Resolved r)
                    (env_at 1714573800000 "a") initial_state) in
  lastLogIdRef initial_state = None
  /\ lastLogIdRef st' = Some "e2" /\ feed st' = [].
Proof.
  intros r st'. split; [reflexivity|].
  apply (C8_first_tick_records_id_only Json.parse (env_at 1714573800000 "a")
           initial_state r (log_entry "e2" true (JString quote_text))
           [log_entry "e1" false JUndefined]).
  - reflexivity.
  - reflexivity.
  - reflexivity.
  - discriminate.
Defined.



Lemma C10_witness :
  Json.parse "" = None
  /\ Json.parse "42" = Some (JNumber (42 # 1))
  /\ Json.parse "null" = Some JNull
  /\ parseAgentResponse Json.parse 0 (JString "42") = Some (default_response 0)
  /\ parseAgentResponse Json.parse 0 (JString "null") = Some (default_response 0)
  /\ parseAgentResponse Json.parse 0 (JArray [JString "up"])
     = Some (default_response 0).
Proof.
  assert (Hempty : Json.parse "" = None) by reflexivity.
  assert (H42 : Json.parse "42" = Some (JNumber (42 # 1))) by reflexivity.
  assert (Hnull : Json.parse "null" = Some JNull) by reflexivity.
  destruct (C10_non_object_data_gives_defaults Json.parse Hempty 0)
    as [Htext Harray].
  exact (conj Hempty (conj H42 (conj Hnull
           (conj (Htext "42" _ H42 eq_refl)
              (conj (Htext "null" _ Hnull eq_refl) (Harray [JString "up"])))))).
Defined.

(** ** Further properties of the normalizer *)
Section NormalizerFurther.

Variable JSON_parse : string -> option JsValue.

#[local] Abbreviation normalize := (parseAgentResponse JSON_parse).

(** X1: the normalizer reports a payload unparseable exactly when the
    payload is falsy (undefined, null, false, zero, the empty text), or is
    neither a text nor of type object, or is a text that does not decode. *)
Theorem X1_unparseable_exactly_when :
  forall (now : Z) (data : JsValue),
    normalize now data = None
    <-> (truthy data = false
         \/ (typeof data <> TString /\ typeof data <> TObject)
         \/ (exists s, data = JString s /\ JSON_parse s = None)).
Proof.
  intros now data. unfold parseAgentResponse, decode_payload. split.
  - destruct (truthy data) eqn:Ht; simpl; [|auto].
    destruct data as [| |b|q|s|items|fields]; simpl in *;
      try discriminate; try (intros _; right; left; split; discriminate).
    destruct (JSON_parse s) eqn:Hs; [discriminate|].
    intros _. right. right. exists s. auto.
  - intros [Ht | [[Hs Ho] | (s & -> & Hs)]].
    + rewrite Ht. reflexivity.
    + destruct (truthy data); [|reflexivity]. simpl.
      destruct data; simpl in *; try reflexivity; congruence.
    + simpl. rewrite Hs. destruct (negb (s =? "")%string); reflexivity.
Qed.

(** X2: when a structured payload has a result member that is an object
    or an array, every member of the record is read from that member and
    the payload's own members are ignored; the unwrapping goes one level
    only, so that a payload whose result wraps a second result object
    yields the record of defaults whatever the inner object holds. *)
Theorem X2_result_unwrapped_one_level :
  forall (now : Z),
    (forall fields r,
       js_get (JObject fields) "result" = r ->
       truthy r = true -> typeof r = TObject ->
       normalize now (JObject fields) = Some (extract_fields now r)
       /\ normalize now (JObject fields)
          = normalize now (JObject [("result", r)]))
    /\ (forall inner,
          normalize now (JObject [("result", JObject [("result", inner)])])
          = Some (default_response now)).
Proof.
  intros now. split.
  - intros fields r Hr Ht Ho.
    unfold parseAgentResponse, decode_payload, unwrap_result. simpl.
    simpl in Hr. rewrite Hr, Ht, Ho. simpl. split; reflexivity.
  - intros inner. reflexivity.
Qed.

(** X3: a text payload that decodes to an object or an array is normalized
    exactly as that decoded value given directly. *)
Theorem X3_text_and_decoded_value_agree :
  forall (now : Z) (s : string) (v : JsValue),
    s <> "" ->
    JSON_parse s = Some v ->
    truthy v = true -> typeof v = TObject ->
    normalize now (JString s) = normalize now v.
Proof.
  intros now s v Hne Hs Ht Ho.
  apply String.eqb_neq in Hne.
  unfold parseAgentResponse, decode_payload. simpl. rewrite Hne, Hs, Ht. simpl.
  destruct v; simpl in *; try discriminate; reflexivity.
Qed.

Lemma filter_strings_filter (items : list JsValue) :
  map JString (filter_strings items) = filter is_string items.
Proof.
  induction items as [|v items IH]; [reflexivity|].
  destruct v; simpl; try exact IH. rewrite IH. reflexivity.
Qed.

(** X4: the bullet points of the record are the elements of the payload's
    bullet_points array that are texts, in their order, the other elements
    dropped; when bullet_points is no array the record has none. *)
Theorem X4_bullet_points_are_the_texts :
  forall (now : Z) (fields : list (string * JsValue)),
    let member := js_get (unwrap_result (JObject fields)) "bullet_points" in
    exists p,
      normalize now (JObject fields) = Some p
      /\ (forall items, member = JArray items ->
            map JString (p_bulletPoints p) = filter is_string items
            /\ (List.length (p_bulletPoints p) <= List.length items)%nat)
      /\ (as_array member = None -> p_bulletPoints p = []).
Proof.
  intros now fields member.
  exists (extract_fields now (unwrap_result (JObject fields))).
  split; [reflexivity|]. simpl. fold member. split.
  - intros items Hm. rewrite Hm. simpl. split.
    + apply filter_strings_filter.
    + rewrite <- (length_map JString), filter_strings_filter.
      apply filter_length_le.
  - intros Hm. rewrite Hm. reflexivity.
Qed.

End NormalizerFurther.

Ltac split_cases :=
  repeat match goal with
         | |- context [match ?x with _ => _ end] => destruct x eqn:?
         end.

(** ** Further properties of the poller *)
Section PollerFurther.

Variable JSON_parse : string -> option JsValue.

#[local] Abbreviation poll := (pollForNewResults JSON_parse).
#[local] Abbreviation normalize := (parseAgentResponse JSON_parse).

(** A tick whose latest entry is the one seen last changes nothing. *)
Lemma poll_seen_noop (r : LogsResult) (latest : ExecutionLog)
  (rest : list ExecutionLog) (env : Env) (st : PageState) :
  executions r = Some (latest :: rest) ->
  lastLogIdRef st = Some (log_id latest) ->
  fst (poll (Resolved r) env st) = st.
Proof.
  intros Hpage Hseen. simpl. rewrite Hpage, Hseen, String.eqb_refl.
  destruct (logs_success r); destruct (log_id latest =? "")%string; reflexivity.
Qed.

(** A tick whose latest entry has no id changes nothing. *)
Lemma poll_without_id (r : LogsResult) (latest : ExecutionLog)
  (rest : list ExecutionLog) (env : Env) (st : PageState) :
  executions r = Some (latest :: rest) ->
  log_id latest = "" ->
  fst (poll (Resolved r) env st) = st.
Proof.
  intros Hpage Hid. simpl. rewrite Hpage, Hid.
  destruct (logs_success r); reflexivity.
Qed.

Lemma isDuplicate_In (entry : AnalysisEntry) (prev : list AnalysisEntry) :
  isDuplicate entry prev = true -> In (dedup_key entry) (map dedup_key prev).
Proof.
  induction prev as [|e prev IH]; simpl; [discriminate|].
  intros H. apply orb_true_iff in H. destruct H as [H | H]; [|auto].
  apply andb_true_iff in H. destruct H as [Ht Hp].
  apply String.eqb_eq in Ht, Hp. left. unfold dedup_key. congruence.
Qed.

(** After a tick that fetched a page, the id of its first entry is the one
    seen last. *)
Lemma poll_records_latest (r : LogsResult) (latest : ExecutionLog)
  (rest : list ExecutionLog) (env : Env) (st : PageState) :
  logs_success r = true ->
  executions r = Some (latest :: rest) ->
  log_id latest <> "" ->
  lastLogIdRef (fst (poll (Resolved r) env st)) = Some (log_id latest).
Proof.
  intros Hok Hpage Hid. simpl. rewrite Hok, Hpage.
  apply String.eqb_neq in Hid. rewrite Hid.
  destruct (lastLogIdRef st) as [seen|] eqn:Hseen; [|reflexivity].
  destruct (seen =? log_id latest)%string eqn:Heq.
  - apply String.eqb_eq in Heq. subst seen. exact Hseen.
  - split_cases; simpl; try rewrite insert_scheduled_lastLogIdRef; reflexivity.
Qed.

(** X5: a tick is idempotent: a second tick that gets the same answer from
    the execution log, whatever the clock, the generated id and the scroll
    offset are by then, leaves the state the first tick produced. *)
Theorem X5_repeated_tick_changes_nothing :
  forall (o : Outcome LogsResult) (env env' : Env) (st : PageState),
    fst (poll o env' (fst (poll o env st))) = fst (poll o env st).
Proof.
  intros o env env' st.
  destruct o as [r|e]; [|reflexivity].
  destruct (logs_success r) eqn:Hok;
    [|rewrite !(poll_fetch_failed JSON_parse (Resolved r)) by (simpl; auto);
      reflexivity].
  destruct (executions r) as [[|latest rest]|] eqn:Hpage;
    try (rewrite !(poll_fetch_failed JSON_parse (Resolved r)) by (simpl; auto);
         reflexivity).
  destruct (log_id latest =? "")%string eqn:Hid.
  - apply String.eqb_eq in Hid.
    rewrite !(poll_without_id r latest rest) by assumption. reflexivity.
  - apply String.eqb_neq in Hid.
    apply (poll_seen_noop r latest rest); [assumption|].
    apply (poll_records_latest r latest rest); assumption.
Qed.

(** X6: a tick that finds a new latest entry (an id other than the known
    last seen one) with success set and a payload that normalizes inserts,
    when no record of the feed has the timestamp and price of the result,
    exactly one record at the head of the feed: the normalized members
    under the generated id with source scheduled; the entry's id is then
    the last seen one, the last-updated time is the clock reading and the
    log view is the fetched page. *)
Theorem X6_new_execution_is_inserted :
  forall (env : Env) (st : PageState) (r : LogsResult) (latest : ExecutionLog)
         (rest : list ExecutionLog) (seen : string) (p : ParsedResponse),
    logs_success r = true ->
    executions r = Some (latest :: rest) ->
    log_id latest <> "" ->
    lastLogIdRef st = Some seen -> seen <> log_id latest ->
    log_success latest = true ->
    truthy (response_output latest) = true ->
    normalize (parse_clock env) (response_output latest) = Some p ->
    ~ In (p_timestamp p, p_currentPrice p) (map dedup_key (feed st)) ->
    let st' := fst (poll (Resolved r) env st) in
    feed st' = make_entry (fresh_id env) p scheduled :: feed st
    /\ lastLogIdRef st' = Some (log_id latest)
    /\ lastUpdated st' = Some (toISOString (update_clock env))
    /\ logs st' = latest :: rest /\ logsTotal st' = total r.
Proof.
  intros env st r latest rest seen p Hok Hpage Hid Hseen Hne Hsucc Hout Hp Hnew st'.
  apply String.eqb_neq in Hid, Hne.
  set (st1 := setLastLogIdRef (log_id latest) st).
  assert (Hres : st' = setLogsTotal (total r)
                         (setLogs (latest :: rest) (insert_scheduled env p st1))).
  { unfold st'. simpl. rewrite Hok, Hpage, Hseen, Hid, Hne, Hsucc, Hout, Hp.
    reflexivity. }
  rewrite Hres. simpl.
  rewrite insert_scheduled_feed, insert_scheduled_lastLogIdRef.
  unfold prepend_unless_duplicate. change (feed st1) with (feed st).
  destruct (isDuplicate (make_entry (fresh_id env) p scheduled) (feed st)) eqn:Hdup.
  - exfalso. apply Hnew. exact (isDuplicate_In _ _ Hdup).
  - repeat split. unfold insert_scheduled. split_cases; reflexivity.
Qed.

(** The state after a tick that finds a new latest entry. *)
Lemma poll_new_entry (env : Env) (st : PageState) (r : LogsResult)
  (latest : ExecutionLog) (rest : list ExecutionLog) (seen : string) :
  logs_success r = true ->
  executions r = Some (latest :: rest) ->
  log_id latest <> "" ->
  lastLogIdRef st = Some seen -> seen <> log_id latest ->
  fst (poll (Resolved r) env st)
  = setLogsTotal (total r)
      (setLogs (latest :: rest)
         (let st1 := setLastLogIdRef (log_id latest) st in
          if log_success latest && truthy (response_output latest)
          then match normalize (parse_clock env) (response_output latest) with
               | Some parsed => insert_scheduled env parsed st1
               | None => st1
               end
          else st1)).
Proof.
  intros Hok Hpage Hid Hseen Hne. apply String.eqb_neq in Hid, Hne.
  simpl. rewrite Hok, Hpage, Hseen, Hid, Hne. reflexivity.
Qed.

(** X7: a tick that finds a new latest entry whose result has the
    timestamp and price of a record of the feed leaves the feed as it was,
    and yet sets the last-updated time to the clock reading and, when the
    feed container is scrolled more than 100 pixels down, raises the
    new-update banner. *)
Theorem X7_duplicate_result_still_counts_as_update :
  forall (env : Env) (st : PageState) (r : LogsResult) (latest : ExecutionLog)
         (rest : list ExecutionLog) (seen : string) (p : ParsedResponse),
    logs_success r = true ->
    executions r = Some (latest :: rest) ->
    log_id latest <> "" ->
    lastLogIdRef st = Some seen -> seen <> log_id latest ->
    log_success latest = true ->
    truthy (response_output latest) = true ->
    normalize (parse_clock env) (response_output latest) = Some p ->
    In (p_timestamp p, p_currentPrice p) (map dedup_key (feed st)) ->
    let st' := fst (poll (Resolved r) env st) in
    feed st' = feed st
    /\ lastUpdated st' = Some (toISOString (update_clock env))
    /\ (forall top, scroll_top env = Some top -> (100 < top)%Q ->
          newUpdateBanner st' = true).
Proof.
  intros env st r latest rest seen p Hok Hpage Hid Hseen Hne Hsucc Hout Hp Hin st'.
  unfold st'. rewrite (poll_new_entry env st r latest rest seen) by assumption.
  rewrite Hsucc, Hout, Hp. simpl.
  rewrite insert_scheduled_feed.
  change (feed (setLastLogIdRef (log_id latest) st)) with (feed st).
  rewrite (prepend_unless_duplicate_noop (make_entry (fresh_id env) p scheduled)
             (feed st) Hin).
  split; [reflexivity|]. unfold insert_scheduled. split.
  - split_cases; reflexivity.
  - intros top Htop Hlt. rewrite Htop.
    destruct (Qle_bool top 100) eqn:Hle; [|reflexivity].
    apply Qle_bool_iff in Hle. exfalso. exact (Qlt_not_le _ _ Hlt Hle).
Qed.

(** X8: a new latest entry whose success flag is off, or whose payload is
    falsy (absent, null, the empty text), is never inserted: the tick that
    finds it leaves the feed and the last-updated time as they were, takes
    its id as the last seen one and refreshes the log view, and every later
    tick that fetches a page with the same first entry changes nothing. *)
Theorem X8_failed_execution_is_skipped :
  forall (env : Env) (st : PageState) (r : LogsResult) (latest : ExecutionLog)
         (rest : list ExecutionLog) (seen : string),
    logs_success r = true ->
    executions r = Some (latest :: rest) ->
    log_id latest <> "" ->
    lastLogIdRef st = Some seen -> seen <> log_id latest ->
    log_success latest = false \/ truthy (response_output latest) = false ->
    let st' := fst (poll (Resolved r) env st) in
    feed st' = feed st
    /\ lastUpdated st' = lastUpdated st
    /\ lastLogIdRef st' = Some (log_id latest)
    /\ logs st' = latest :: rest
    /\ (forall r' rest' env',
          executions r' = Some (latest :: rest') ->
          fst (poll (Resolved r') env' st') = st').
Proof.
  intros env st r latest rest seen Hok Hpage Hid Hseen Hne Hfail st'.
  assert (Hres : st' = setLogsTotal (total r)
                         (setLogs (latest :: rest)
                            (setLastLogIdRef (log_id latest) st))).
  { unfold st'. rewrite (poll_new_entry env st r latest rest seen) by assumption.
    destruct Hfail as [H | H]; rewrite H; [|rewrite andb_false_r]; reflexivity. }
  rewrite Hres. repeat split.
  intros r' rest' env' Hpage'.
  apply (poll_seen_noop r' latest rest'); [assumption | reflexivity].
Qed.

(** X9: a tick looks at the first entry of the page only: two pages with
    the same first entry produce the same feed, last seen id, last-updated
    time and banner, so an execution that is no longer the first entry of
    the page when a tick runs is never inserted by it. *)
Theorem X9_only_the_latest_entry_is_examined :
  forall (env : Env) (st : PageState) (r r' : LogsResult)
         (latest : ExecutionLog) (rest rest' : list ExecutionLog),
    logs_success r = true -> logs_success r' = true ->
    executions r = Some (latest :: rest) ->
    executions r' = Some (latest :: rest') ->
    let st1 := fst (poll (Resolved r) env st) in
    let st2 := fst (poll (Resolved r') env st) in
    feed st1 = feed st2
    /\ lastLogIdRef st1 = lastLogIdRef st2
    /\ lastUpdated st1 = lastUpdated st2
    /\ newUpdateBanner st1 = newUpdateBanner st2.
Proof.
  intros env st r r' latest rest rest' Hok Hok' Hpage Hpage'. simpl.
  rewrite Hok, Hok', Hpage, Hpage'.
  split_cases; repeat split.
Qed.

End PollerFurther.

(** ** Sessions *)
Section SessionProperties.

Variable JSON_parse : string -> option JsValue.

#[local] Abbreviation step' := (step JSON_parse).
#[local] Abbreviation run' := (run JSON_parse).

Ltac unfold_step :=
  unfold step, loadScheduleStatus, loadLogs, pollForNewResults, runAnalysis,
    handleToggleSchedule, loadScheduleStatus, loadScheduleStatus_settled,
    insert_scheduled, toggleSampleData, dismissError, scrollToTop.

(** What every step keeps holds after every run. *)
Lemma run_invariant (P : PageState -> Prop) :
  (forall st ev, P st -> P (step' st ev)) ->
  forall evs st, P st -> P (run' st evs).
Proof.
  intros Hstep evs. induction evs as [|ev evs IH]; intros st H; simpl; auto.
Qed.

Lemma reachable_invariant (P : PageState -> Prop) :
  P initial_state ->
  (forall st ev, P st -> P (step' st ev)) ->
  forall st, reachable JSON_parse st -> P st.
Proof.
  intros Hinit Hstep st [evs ->]. apply run_invariant; assumption.
Qed.

Lemma run_app (st : PageState) (evs evs' : list Event) :
  run' st (evs ++ evs')%list = run' (run' st evs) evs'.
Proof. unfold run. apply fold_left_app. Qed.

(** X10: the feed only grows at its head: after any run of events the
    feed is the earlier feed with new records in front of it, at most one
    for each poll tick and manual run of the run; no event removes,
    reorders or rewrites a record. *)
Theorem X10_feed_grows_at_the_head :
  forall (evs : list Event) (st : PageState),
    exists new,
      feed (run' st evs) = (new ++ feed st)%list
      /\ (List.length new <= List.length (filter may_insert evs))%nat.
Proof.
  induction evs as [|ev evs IH]; intros st.
  - exists []. split; [reflexivity | apply le_n].
  - destruct (IH (step' st ev)) as (new & Hfeed & Hlen).
    simpl run. fold (run' (step' st ev) evs). rewrite Hfeed.
    assert (Hstep : (feed (step' st ev) = feed st)
                    \/ (may_insert ev = true
                        /\ exists e, feed (step' st ev) = e :: feed st)).
    { destruct (step_feed JSON_parse st ev) as [H | H]; [auto|].
      destruct ev; simpl may_insert; auto; left;
        destruct H as [e He]; revert He; unfold_step; simpl;
        split_cases; simpl; intros He;
        try reflexivity;
        exfalso; apply (f_equal (@List.length _)) in He; simpl in He; lia. }
    destruct Hstep as [-> | (Hev & e & ->)].
    + exists new. split; [reflexivity|].
      simpl. destruct (may_insert ev); simpl; lia.
    + exists (new ++ [e])%list. split.
      * rewrite <- app_assoc. reflexivity.
      * simpl. rewrite Hev. rewrite length_app. simpl. lia.
Qed.

(** X11: in every state of a session the last-updated time is set exactly
    when the feed holds a record. *)
Theorem X11_last_updated_iff_feed_not_empty :
  forall st : PageState,
    reachable JSON_parse st ->
    (lastUpdated st = None <-> feed st = []).
Proof.
  apply reachable_invariant; [split; reflexivity|].
  intros st ev [H1 H2].
  assert (Hdup : forall e, prepend_unless_duplicate e (feed st) <> []).
  { intros e. unfold prepend_unless_duplicate.
    destruct (isDuplicate e (feed st)) eqn:Hd; [|discriminate].
    destruct (feed st); [discriminate Hd | discriminate]. }
  destruct ev; unfold_step; simpl; split_cases; simpl;
    try (split; assumption);
    split; intros H; try discriminate H;
    exfalso; eapply Hdup; exact H.
Qed.

(** X12: in every state of a session the cached active flag is the
    is_active member of the cached schedule: unknown exactly when no
    schedule is cached. *)
Theorem X12_cached_flag_matches_cached_schedule :
  forall st : PageState,
    reachable JSON_parse st ->
    scheduleActive st = option_map is_active (scheduleData st).
Proof.
  apply reachable_invariant; [reflexivity|].
  intros st ev H.
  destruct ev; unfold_step; simpl; split_cases; simpl; try reflexivity;
    congruence.
Qed.

Lemma schedule_cache_step (st : PageState) (ev : Event) :
  scheduleActive st = option_map is_active (scheduleData st) ->
  scheduleActive (step' st ev) = option_map is_active (scheduleData (step' st ev)).
Proof.
  intros H.
  destruct ev; unfold_step; simpl; split_cases; simpl; try reflexivity;
    congruence.
Qed.

(** X13: in every state of a session in which the scheduler switch is
    enabled, a click on it issues exactly one pause or resume call, for the
    cached schedule: a pause when the switch shows on (the button reads
    Pause Schedule), a resume when it shows off; the busy flag is off again
    when the click has been handled. *)
Theorem X13_enabled_switch_issues_one_call :
  forall (st : PageState) (toggled : Outcome ToggleAck)
         (listed : Outcome SchedulesResult),
    reachable JSON_parse st ->
    toggle_disabled st = false ->
    exists data,
      scheduleData st = Some data
      /\ filter is_toggle_call (snd (handleToggleSchedule toggled listed st))
         = [if switch_checked st then PauseSchedule (sched_id data)
            else ResumeSchedule (sched_id data)]
      /\ toggle_button_label st
         = (if switch_checked st then "Pause Schedule" else "Resume Schedule")
      /\ toggling (fst (handleToggleSchedule toggled listed st)) = false.
Proof.
  intros st toggled listed Hreach Henabled.
  assert (Hcache : scheduleActive st = option_map is_active (scheduleData st)).
  { revert st Hreach Henabled. intros st Hreach _. revert st Hreach.
    apply reachable_invariant; [reflexivity | apply schedule_cache_step]. }
  unfold toggle_disabled in Henabled. apply orb_false_iff in Henabled.
  destruct Henabled as [_ Hknown].
  unfold switch_checked, toggle_button_label, handleToggleSchedule.
  destruct (scheduleData st) as [data|]; simpl in Hcache; rewrite Hcache in *;
    [|discriminate].
  exists data. split; [reflexivity|].
  destruct toggled as [ack|e]; simpl;
    destruct (is_active data); simpl; repeat split.
Qed.

(** X14: the new-update banner is raised by nothing but a poll tick that
    runs while the feed container is scrolled more than 100 pixels down,
    and taken down by nothing but a click on it; in particular a manual
    run never changes it. *)
Theorem X14_banner_raised_by_ticks_only :
  forall (st : PageState) (ev : Event),
    (newUpdateBanner st = false -> newUpdateBanner (step' st ev) = true ->
     exists o env top,
       ev = PollTick o env /\ scroll_top env = Some top /\ (100 < top)%Q)
    /\ (newUpdateBanner st = true -> newUpdateBanner (step' st ev) = false ->
        ev = BannerClicked)
    /\ (forall o env, ev = ManualRun o env ->
          newUpdateBanner (step' st ev) = newUpdateBanner st).
Proof.
  intros st ev. split; [|split].
  - intros Hoff. destruct ev as [o|o|o env|o env|toggled listed| | |];
      unfold_step; simpl; split_cases; simpl; try congruence.
    intros _. eexists _, env, _. split; [reflexivity|]. split; [eassumption|].
    apply Qnot_le_lt. intros Hle. apply Qle_bool_iff in Hle.
    match goal with H : negb _ = true |- _ => rewrite Hle in H; discriminate H end.
  - intros Hon. destruct ev; unfold_step; simpl; split_cases; simpl;
      try congruence; reflexivity.
  - intros o env ->. unfold_step. simpl. split_cases; reflexivity.
Qed.

(** X15: the last seen execution id is written by poll ticks only, is
    never the empty text, and once known stays known for the rest of the
    session. *)
Theorem X15_last_seen_id_discipline :
  (forall st ev, lastLogIdRef (step' st ev) <> lastLogIdRef st ->
     exists o env, ev = PollTick o env)
  /\ (forall st, reachable JSON_parse st -> lastLogIdRef st <> Some "")
  /\ (forall evs st, lastLogIdRef st <> None -> lastLogIdRef (run' st evs) <> None).
Proof.
  assert (Hstep : forall st ev, lastLogIdRef (step' st ev) = lastLogIdRef st
                                \/ exists o env latest,
                                     ev = PollTick o env
                                     /\ log_id latest <> ""
                                     /\ lastLogIdRef (step' st ev)
                                        = Some (log_id latest)).
  { intros st ev. destruct ev as [o|o|o env|o env|toggled listed| | |];
      try (left; unfold_step; simpl; split_cases; reflexivity).
    unfold step. destruct o as [r|e]; [|left; reflexivity].
    destruct (logs_success r) eqn:Hok;
      [|left; rewrite (poll_fetch_failed JSON_parse (Resolved r)) by (simpl; auto);
        reflexivity].
    destruct (executions r) as [[|latest rest]|] eqn:Hpage;
      try (left; rewrite (poll_fetch_failed JSON_parse (Resolved r))
             by (simpl; auto); reflexivity).
    destruct (log_id latest =? "")%string eqn:Hid.
    - left. apply String.eqb_eq in Hid.
      rewrite (poll_without_id JSON_parse r latest rest) by assumption.
      reflexivity.
    - right. apply String.eqb_neq in Hid. exists (Resolved r), env, latest.
      split; [reflexivity|]. split; [assumption|].
      apply (poll_records_latest JSON_parse r latest rest); assumption. }
  split; [|split].
  - intros st ev Hne. destruct (Hstep st ev) as [H | (o & env & _ & -> & _)];
      [congruence | eauto].
  - apply reachable_invariant; [discriminate|].
    intros st ev H. destruct (Hstep st ev) as [-> | (_ & _ & latest & _ & Hid & ->)];
      [assumption | congruence].
  - intros evs st. revert st. apply (run_invariant (fun st => lastLogIdRef st <> None)).
    intros st ev H. destruct (Hstep st ev) as [-> | (_ & _ & latest & _ & _ & ->)];
      [assumption | discriminate].
Qed.

(** X16: a run of events with no manual run in it keeps the feed free of
    two records with one timestamp and price; in particular every session
    without a manual run has such a feed. *)
Theorem X16_sessions_without_manual_run_are_deduplicated :
  forall (evs : list Event) (st : PageState),
    forallb (fun ev => negb (is_manual_run ev)) evs = true ->
    feed_deduplicated (feed st) ->
    feed_deduplicated (feed (run' st evs)).
Proof.
  induction evs as [|ev evs IH]; intros st Hevs Hst; [exact Hst|].
  simpl in Hevs. apply andb_true_iff in Hevs. destruct Hevs as [Hev Hevs].
  simpl. apply IH; [assumption|].
  destruct ev as [o|o|o env|o env|toggled listed| | |]; try discriminate Hev;
    try (apply poll_keeps_feed_deduplicated; assumption);
    replace (feed (step' st _)) with (feed st); try assumption;
    unfold_step; simpl; split_cases; reflexivity.
Qed.

End SessionProperties.

(** ** The schedule cache *)

Lemma find_first_match {A : Type} (f : A -> bool) (before : list A) (x : A)
  (after : list A) :
  f x = true -> (forall y, In y before -> f y = false) ->
  find f (before ++ x :: after)%list = Some x.
Proof.
  intros Hx. induction before as [|y before IH]; intros Hbefore; simpl.
  - rewrite Hx. reflexivity.
  - rewrite (Hbefore y (or_introl eq_refl)). apply IH.
    intros z Hz. apply Hbefore. right. exact Hz.
Qed.

(** X17: the schedule the status fetch caches is one of the listed ones:
    the first one whose id is the tracked id when there is one (the
    schedule with that id before which no listed schedule has it), else
    the first of the list; none is cached exactly when the list is
    empty. *)
Theorem X17_selected_schedule :
  forall l : list Schedule,
    (select_schedule l = None <-> l = [])
    /\ (forall s, select_schedule l = Some s -> In s l)
    /\ (forall before s after,
          l = (before ++ s :: after)%list ->
          sched_id s = SCHEDULE_ID ->
          (forall s', In s' before -> sched_id s' <> SCHEDULE_ID) ->
          select_schedule l = Some s)
    /\ ((forall s', In s' l -> sched_id s' <> SCHEDULE_ID) ->
        select_schedule l = hd_error l).
Proof.
  intros l. split; [|split; [|split]].
  - unfold select_schedule.
    destruct (find (fun s => (sched_id s =? SCHEDULE_ID)%string) l) as [s|] eqn:Hfind.
    + apply find_some in Hfind. destruct Hfind as [Hin _].
      split; [discriminate | intros ->; destruct Hin].
    + split; [destruct l; [reflexivity | discriminate] | intros ->; reflexivity].
  - intros s. unfold select_schedule.
    destruct (find (fun s => (sched_id s =? SCHEDULE_ID)%string) l) as [s0|] eqn:Hfind.
    + intros H. injection H as <-. apply find_some in Hfind. tauto.
    + intros H. destruct l as [|s0 l]; [discriminate|].
      injection H as <-. left. reflexivity.
  - intros before s after -> Hid Hbefore. unfold select_schedule.
    rewrite (find_first_match _ before s after); [reflexivity | |].
    + apply String.eqb_eq. exact Hid.
    + intros y Hy. apply String.eqb_neq. exact (Hbefore y Hy).
  - intros Hnone. unfold select_schedule.
    destruct (find (fun s => (sched_id s =? SCHEDULE_ID)%string) l) as [s|] eqn:Hfind;
      [|reflexivity].
    apply find_some in Hfind. destruct Hfind as [Hin Hid].
    apply String.eqb_eq in Hid. destruct (Hnone s Hin Hid).
Qed.

(** X18: when the listing does not hold the tracked schedule, the status
    fetch caches the first listed schedule, and the toggle then pauses or
    resumes that schedule, under its own id, which is not the id the
    poller queries the execution log with. *)
Theorem X18_toggle_acts_on_the_cached_schedule :
  forall (st : PageState) (first : Schedule) (rest : list Schedule)
         (toggled : Outcome ToggleAck) (listed : Outcome SchedulesResult),
    (forall s, In s (first :: rest) -> sched_id s <> SCHEDULE_ID) ->
    let st1 := fst (loadScheduleStatus
                      (Resolved {| list_success := true;
                                   schedules := Some (first :: rest) |}) st) in
    scheduleData st1 = Some first
    /\ scheduleActive st1 = Some (is_active first)
    /\ filter is_toggle_call (snd (handleToggleSchedule toggled listed st1))
       = [if is_active first then PauseSchedule (sched_id first)
          else ResumeSchedule (sched_id first)]
    /\ sched_id first <> SCHEDULE_ID.
Proof.
  intros st first rest toggled listed Hnone st1.
  assert (Hsel : select_schedule (first :: rest) = Some first).
  { unfold select_schedule.
    destruct (find (fun s => (sched_id s =? SCHEDULE_ID)%string) (first :: rest))
      as [s|] eqn:Hfind; [|reflexivity].
    apply find_some in Hfind. destruct Hfind as [Hin Hid].
    apply String.eqb_eq in Hid. destruct (Hnone s Hin Hid). }
  assert (Hdata : scheduleData st1 = Some first).
  { unfold st1. simpl. rewrite Hsel. reflexivity. }
  split; [exact Hdata|]. split.
  - unfold st1. simpl. rewrite Hsel. reflexivity.
  - split; [|apply Hnone; left; reflexivity].
    unfold handleToggleSchedule. rewrite Hdata.
    destruct toggled; simpl; destruct (is_active first); reflexivity.
Qed.

(** ** Manual runs *)
Section ManualRunFurther.

Variable JSON_parse : string -> option JsValue.

#[local] Abbreviation normalize := (parseAgentResponse JSON_parse).

(** X19: a manual run neither reads nor writes the poller's and the
    schedule's state: whatever the agent answers, the last seen execution
    id, the log view and the cached schedule are as before, the busy flag
    is off, and the feed it produces is the same whatever the last seen id
    was. *)
Theorem X19_manual_run_is_independent_of_the_poller :
  forall (o : Outcome AgentResult) (env : Env) (st : PageState),
    let st' := fst (runAnalysis JSON_parse o env st) in
    lastLogIdRef st' = lastLogIdRef st
    /\ logs st' = logs st /\ logsTotal st' = logsTotal st
    /\ scheduleActive st' = scheduleActive st
    /\ scheduleData st' = scheduleData st
    /\ isAnalyzing st' = false
    /\ (forall v, feed (fst (runAnalysis JSON_parse o env (setLastLogIdRef v st)))
                  = feed st').
Proof.
  intros o env st. unfold runAnalysis. simpl.
  split_cases; simpl; repeat split.
Qed.

(** X20: a manual run whose agent call reports success with a payload
    that normalizes puts one record at the head of the feed (the
    normalized members, the generated id, source manual), sets the
    last-updated time, and clears an error message left by an earlier run;
    the header then shows that record as the latest one, whether or not
    the sample switch is on. *)
Theorem X20_successful_manual_run :
  forall (result : AgentResult) (env : Env) (st : PageState) (p : ParsedResponse),
    agent_success result = true ->
    normalize (parse_clock env) (js_get (response result) "result") = Some p ->
    let st' := fst (runAnalysis JSON_parse (Resolved result) env st) in
    let entry := make_entry (fresh_id env) p manual in
    feed st' = entry :: feed st
    /\ lastUpdated st' = Some (toISOString (update_clock env))
    /\ analysisError st' = None
    /\ error_banner_shown st' = false
    /\ (forall now, displayFeed now st' = feed st'
                    /\ latestEntry now st' = Some entry).
Proof.
  intros result env st p Hok Hp st' entry.
  assert (Hres : st' = setIsAnalyzing false
                         (setLastUpdated (toISOString (update_clock env))
                            (setFeed (fun prev => entry :: prev)
                               (setAnalysisError None (setIsAnalyzing true st))))).
  { unfold st', runAnalysis. simpl. rewrite Hok, Hp. reflexivity. }
  rewrite Hres. repeat split.
  - unfold displayFeed. simpl. rewrite andb_false_r. reflexivity.
  - unfold latestEntry, displayFeed. simpl. rewrite andb_false_r. reflexivity.
Qed.

End ManualRunFurther.

(** ** Relative times *)
Section RelativeTimeProperties.

Variable Date_getTime : string -> option Z.

(** X21: the edges of the relative time: the empty text gives the empty
    text, a text that is no date gives NaNd ago, and a time later than the
    clock gives just now. *)
Theorem X21_relative_time_edges :
  forall now : Z,
    relativeTime Date_getTime now "" = ""
    /\ (forall s, s <> "" -> Date_getTime s = None ->
          relativeTime Date_getTime now s = "NaNd ago")
    /\ (forall s t, s <> "" -> Date_getTime s = Some t -> now < t ->
          relativeTime Date_getTime now s = "just now").
Proof.
  intros now. split; [reflexivity|]. split.
  - intros s Hne Hs. apply String.eqb_neq in Hne.
    unfold relativeTime. rewrite Hne, Hs. reflexivity.
  - intros s t Hne Hs Hlt. apply String.eqb_neq in Hne.
    unfold relativeTime. rewrite Hne, Hs.
    assert (H : ((now - t) / 1000 <? 0) = true).
    { apply Z.ltb_lt. Z.div_mod_to_equations. lia. }
    rewrite H. reflexivity.
Qed.

(** X22: for a time not later than the clock, the relative time is the
    whole number of elapsed seconds below one minute, of elapsed minutes
    below one hour, of elapsed hours below one day, and of elapsed days
    from then on, each followed by the letter of its unit. *)
Theorem X22_relative_time_counts_whole_units :
  forall (now : Z) (s : string) (t : Z),
    s <> "" -> Date_getTime s = Some t -> t <= now ->
    let d := now - t in
    (d < 60000
     /\ relativeTime Date_getTime now s = show_int (d / 1000) ++ "s ago")
    \/ (60000 <= d < 3600000
        /\ relativeTime Date_getTime now s = show_int (d / 60000) ++ "m ago")
    \/ (3600000 <= d < 86400000
        /\ relativeTime Date_getTime now s = show_int (d / 3600000) ++ "h ago")
    \/ (86400000 <= d
        /\ relativeTime Date_getTime now s = show_int (d / 86400000) ++ "d ago").
Proof.
  intros now s t Hne Hs Hle d. apply String.eqb_neq in Hne.
  unfold relativeTime. rewrite Hne, Hs. fold d.
  assert (Hd : 0 <= d) by (unfold d; lia).
  assert (Hm : d / 1000 / 60 = d / 60000)
    by (rewrite Z.div_div by lia; reflexivity).
  assert (Hh : d / 1000 / 60 / 60 = d / 3600000)
    by (rewrite !Z.div_div by lia; reflexivity).
  assert (Hdays : d / 1000 / 60 / 60 / 24 = d / 86400000)
    by (rewrite !Z.div_div by lia; reflexivity).
  rewrite Hdays, Hh, Hm.
  destruct (d / 1000 <? 0) eqn:H0.
  { apply Z.ltb_lt in H0. exfalso. revert H0. Z.div_mod_to_equations. lia. }
  destruct (d / 1000 <? 60) eqn:H1.
  { left. apply Z.ltb_lt in H1. split; [|reflexivity].
    revert H1. Z.div_mod_to_equations. lia. }
  apply Z.ltb_ge in H1.
  destruct (d / 60000 <? 60) eqn:H2.
  { right. left. apply Z.ltb_lt in H2. split; [|reflexivity].
    revert H1 H2. Z.div_mod_to_equations. lia. }
  apply Z.ltb_ge in H2.
  destruct (d / 3600000 <? 24) eqn:H3.
  { right. right. left. apply Z.ltb_lt in H3. split; [|reflexivity].
    revert H2 H3. Z.div_mod_to_equations. lia. }
  apply Z.ltb_ge in H3.
  right. right. right. split; [|reflexivity].
  revert H3. Z.div_mod_to_equations. lia.
Qed.

Lemma toISOString_not_empty (t : Z) : (toISOString t =? "")%string = false.
Proof.
  unfold toISOString. destruct (civil_from_days (t / msPerDay)) as [[y m] d].
  destruct (year_string y); reflexivity.
Qed.

(** X23: when the platform reads the three timestamps of the sample
    records back as the times they were written from, the cards of the
    sample records, rendered less than a minute after the records were
    made, read 2m ago, 12m ago and 22m ago. *)
Theorem X23_sample_records_read_2_12_22_minutes :
  forall now render_now : Z,
    (forall t, In t [now - 120000; now - 720000; now - 1320000] ->
       Date_getTime (toISOString t) = Some t) ->
    now <= render_now < now + 60000 ->
    map (fun e => relativeTime Date_getTime render_now (timestamp e))
      (getSampleData now)
    = ["2m ago"; "12m ago"; "22m ago"].
Proof.
  intros now render_now Hread Hrender.
  assert (Hago : forall k,
                 In (now - k * 60000) [now - 120000; now - 720000; now - 1320000] ->
                 1 <= k < 60 ->
                 relativeTime Date_getTime render_now (toISOString (now - k * 60000))
                 = show_int k ++ "m ago").
  { intros k Hin Hk. unfold relativeTime.
    rewrite toISOString_not_empty, (Hread _ Hin).
    assert (Hmin : (render_now - (now - k * 60000)) / 1000 / 60 = k).
    { rewrite Z.div_div by lia. change (1000 * 60) with 60000.
      Z.div_mod_to_equations. lia. }
    rewrite Hmin.
    assert (H0 : ((render_now - (now - k * 60000)) / 1000 <? 0) = false).
    { apply Z.ltb_ge. Z.div_mod_to_equations. lia. }
    assert (H1 : ((render_now - (now - k * 60000)) / 1000 <? 60) = false).
    { apply Z.ltb_ge. Z.div_mod_to_equations. lia. }
    assert (H2 : (k <? 60) = true) by (apply Z.ltb_lt; lia).
    rewrite H0, H1, H2. reflexivity. }
  unfold getSampleData, map, timestamp.
  change (now - 2 * 60 * 1000) with (now - 2 * 60000).
  change (now - 12 * 60 * 1000) with (now - 12 * 60000).
  change (now - 22 * 60 * 1000) with (now - 22 * 60000).
  rewrite (Hago 2), (Hago 12), (Hago 22); try lia; simpl; auto.
Qed.

End RelativeTimeProperties.

(** X24: a payload timestamp is kept as the text it is, so a record
    normalized from a structured payload whose timestamp member is a text
    that is no date is shown with the relative time NaNd ago. *)
Theorem X24_timestamp_that_is_no_date :
  forall (JSON_parse : string -> option JsValue) (Date_getTime : string -> option Z)
         (now render_now : Z) (fields : list (string * JsValue)) (ts : string),
    js_get (unwrap_result (JObject fields)) "timestamp" = JString ts ->
    ts <> "" -> Date_getTime ts = None ->
    exists p,
      parseAgentResponse JSON_parse now (JObject fields) = Some p
      /\ p_timestamp p = ts
      /\ relativeTime Date_getTime render_now (p_timestamp p) = "NaNd ago".
Proof.
  intros JSON_parse Date_getTime now render_now fields ts Hts Hne Hnone.
  exists (extract_fields now (unwrap_result (JObject fields))).
  split; [reflexivity|]. simpl. rewrite Hts. simpl. split; [reflexivity|].
  apply String.eqb_neq in Hne. unfold relativeTime. rewrite Hne, Hnone.
  reflexivity.
Qed.

(** X25: the icon, the chip, the price change of a card and the ticker
    badge colour a direction alike: green (#22b87a) for up, red (#d93a3a)
    for down and grey (#7f8694) for every other text, which is also exactly
    when the chip reads Neutral. *)
Theorem X25_direction_colours_agree :
  forall (entry : AnalysisEntry),
    (direction entry = "up" ->
     DirectionChip_color (direction entry) = "#22b87a")
    /\ (direction entry = "down" ->
        DirectionChip_color (direction entry) = "#d93a3a")
    /\ (direction entry <> "up" -> direction entry <> "down" ->
        DirectionChip_color (direction entry) = "#7f8694")
    /\ DirectionIcon_color (direction entry) = DirectionChip_color (direction entry)
    /\ AnalysisCard_change_color entry = DirectionChip_color (direction entry)
    /\ (forall now st, latestEntry now st = Some entry ->
          ticker_color now st = Some (DirectionChip_color (direction entry)))
    /\ (DirectionChip_label (direction entry) = "Neutral"
        <-> DirectionChip_color (direction entry) = "#7f8694")
    /\ (DirectionChip_color (direction entry) = "#7f8694"
        <-> direction entry <> "up" /\ direction entry <> "down").
Proof.
  intros entry.
  split; [intros ->; reflexivity|]. split; [intros ->; reflexivity|].
  split.
  { intros Hup Hdown. unfold DirectionChip_color.
    apply String.eqb_neq in Hup, Hdown. rewrite Hup, Hdown. reflexivity. }
  split; [reflexivity|]. split; [reflexivity|]. split.
  - intros now st H. unfold ticker_color. rewrite H. reflexivity.
  - unfold DirectionChip_label, DirectionChip_color.
    destruct (direction entry =? "up")%string eqn:Hup.
    + apply String.eqb_eq in Hup. split; split; try discriminate.
      intros [H _]. contradiction.
    + destruct (direction entry =? "down")%string eqn:Hdown.
      * apply String.eqb_eq in Hdown. split; split; try discriminate.
        intros [_ H]. contradiction.
      * apply String.eqb_neq in Hup, Hdown. split; split; auto.
Qed.

(** ** Mount and the log view *)
Section MountProperties.

Variable JSON_parse : string -> option JsValue.

#[local] Abbreviation poll := (pollForNewResults JSON_parse).
#[local] Abbreviation step' := (step JSON_parse).
#[local] Abbreviation run' := (run JSON_parse).

Ltac unfold_step :=
  unfold step, loadScheduleStatus, loadLogs, pollForNewResults, runAnalysis,
    handleToggleSchedule, loadScheduleStatus, loadScheduleStatus_settled,
    insert_scheduled, toggleSampleData, dismissError, scrollToTop.

(** X26: the load of the log view replaces the view and its total by
    whatever array the log answers with, the empty one included, and keeps
    them when the fetch throws, reports no success or returns no array; it
    never touches the feed nor the last seen id.  A poll tick that gets an
    empty page, by contrast, leaves the view it finds. *)
Theorem X26_log_view_load :
  forall (st : PageState),
    (forall r l, logs_success r = true -> executions r = Some l ->
       logs (fst (loadLogs (Resolved r) st)) = l
       /\ logsTotal (fst (loadLogs (Resolved r) st)) = total r)
    /\ (forall o,
          match o with
          | Rejected _ => True
          | Resolved r => logs_success r = false \/ executions r = None
          end ->
          fst (loadLogs o st) = st)
    /\ (forall o, feed (fst (loadLogs o st)) = feed st
                  /\ lastLogIdRef (fst (loadLogs o st)) = lastLogIdRef st)
    /\ (forall r env, executions r = Some [] ->
          logs (fst (poll (Resolved r) env st)) = logs st
          /\ logsTotal (fst (poll (Resolved r) env st)) = logsTotal st).
Proof.
  intros st. split; [|split; [|split]].
  - intros r l Hok Hl. simpl. rewrite Hok, Hl. split; reflexivity.
  - intros [r|e]; [|reflexivity]. simpl.
    intros [H | H]; rewrite H; [reflexivity|].
    destruct (logs_success r); reflexivity.
  - intros o. unfold loadLogs. simpl. split_cases; split; reflexivity.
  - intros r env Hpage.
    rewrite (poll_fetch_failed JSON_parse (Resolved r)) by (simpl; auto).
    split; reflexivity.
Qed.

Lemma step_feed_length (st : PageState) (ev : Event) :
  (List.length (feed (step' st ev))
   <= List.length (feed st) + (if may_insert ev then 1 else 0))%nat.
Proof.
  destruct ev as [o|o|o env|o env|toggled listed| | |];
    try (replace (feed (step' st _)) with (feed st);
         [simpl; lia | unfold_step; simpl; split_cases; reflexivity]).
  - destruct (step_feed JSON_parse st (PollTick o env)) as [-> | [e ->]];
      simpl; lia.
  - destruct (step_feed JSON_parse st (ManualRun o env)) as [-> | [e ->]];
      simpl; lia.
Qed.

Lemma first_tick_feed (o : Outcome LogsResult) (env : Env) (st : PageState) :
  lastLogIdRef st = None -> feed (fst (poll o env st)) = feed st.
Proof.
  intros Hseen. simpl. rewrite Hseen. split_cases; reflexivity.
Qed.

Lemma step_keeps_unknown_id (st : PageState) (ev : Event) :
  is_poll_tick ev = false ->
  lastLogIdRef st = None -> lastLogIdRef (step' st ev) = None.
Proof.
  intros Hev Hseen. destruct ev; try discriminate Hev;
    unfold_step; simpl; split_cases; assumption.
Qed.

Lemma run_feed_length (evs : list Event) (st : PageState) :
  (List.length (feed (run' st evs))
   <= List.length (feed st) + List.length (filter is_manual_run evs)
      + List.length (filter is_poll_tick evs))%nat.
Proof.
  revert st. induction evs as [|ev evs IH]; intros st; [simpl; lia|].
  change (run' st (ev :: evs)) with (run' (step' st ev) evs).
  pose proof (IH (step' st ev)) as H. pose proof (step_feed_length st ev) as Hs.
  set (st1 := step' st ev) in *. clearbody st1.
  destruct ev; simpl in *; lia.
Qed.

(** X27: the poller inserts nothing on its first tick, so the number of
    records of the feed of a session is at most the number of its manual
    runs plus the number of its poll ticks less one; a session without a
    manual run shows no record before its second tick. *)
Theorem X27_feed_size_bound :
  forall evs : list Event,
    (List.length (feed (run' initial_state evs))
     <= List.length (filter is_manual_run evs)
        + Nat.pred (List.length (filter is_poll_tick evs)))%nat.
Proof.
  assert (H : forall evs st, lastLogIdRef st = None ->
              (List.length (feed (run' st evs))
               <= List.length (feed st) + List.length (filter is_manual_run evs)
                  + Nat.pred (List.length (filter is_poll_tick evs)))%nat).
  { induction evs as [|ev evs IH]; intros st Hseen; [simpl; lia|].
    change (run' st (ev :: evs)) with (run' (step' st ev) evs).
    destruct (is_poll_tick ev) eqn:Hev.
    - destruct ev as [ | |o env| | | | |]; try discriminate Hev.
      assert (Hfeed : feed (step' st (PollTick o env)) = feed st)
        by exact (first_tick_feed o env st Hseen).
      pose proof (run_feed_length evs (step' st (PollTick o env))) as Hrest.
      rewrite Hfeed in Hrest.
      change (filter is_manual_run (PollTick o env :: evs))
        with (filter is_manual_run evs).
      change (filter is_poll_tick (PollTick o env :: evs))
        with (PollTick o env :: filter is_poll_tick evs).
      change (Nat.pred (List.length (PollTick o env :: filter is_poll_tick evs)))
        with (List.length (filter is_poll_tick evs)).
      exact Hrest.
    - pose proof (IH (step' st ev) (step_keeps_unknown_id st ev Hev Hseen)) as Hrest.
      pose proof (step_feed_length st ev) as Hs.
      set (st1 := step' st ev) in *. clearbody st1.
      destruct ev; try discriminate Hev; simpl in *; lia. }
  intros evs. exact (H evs initial_state eq_refl).
Qed.

End MountProperties.

(** ** The further properties at concrete inputs *)
Import FurtherScenario.

Lemma X1_witness :
  parseAgentResponse Json.parse 0 (JNumber (7 # 1)) = None
  /\ parseAgentResponse Json.parse 0 (JString "upstream timeout") = None
  /\ truthy (JObject []) = true.
Proof.
  split; [|split].
  - apply (proj2 (X1_unparseable_exactly_when Json.parse 0 (JNumber (7 # 1)))).
    right. left. split; discriminate.
  - apply (proj2 (X1_unparseable_exactly_when Json.parse 0
                    (JString "upstream timeout"))).
    right. right. exists "upstream timeout". split; reflexivity.
  - reflexivity.
Defined.

Lemma X2_witness :
  parseAgentResponse Json.parse 0 (JObject wrapped_payload)
  = Some {| p_currentPrice := "$2.00";
            p_priceChange := "N/A";
            p_direction := "flat";
            p_bulletPoints := ["a"; "b"];
            p_timestamp := "yesterday" |}.
Proof.
  exact (proj1 (proj1 (X2_result_unwrapped_one_level Json.parse 0)
                  wrapped_payload _ eq_refl eq_refl eq_refl)).
Defined.

Lemma X3_witness :
  Json.parse quote_text
  = Some (JObject [ ("current_price", JString "$421.35");
                    ("timestamp", JString "2024-05-01T14:30:00.000Z") ])
  /\ parseAgentResponse Json.parse 0 (JString quote_text)
     = parseAgentResponse Json.parse 0
         (JObject [ ("current_price", JString "$421.35");
                    ("timestamp", JString "2024-05-01T14:30:00.000Z") ]).
Proof.
  assert (H : Json.parse quote_text
              = Some (JObject [ ("current_price", JString "$421.35");
                                ("timestamp", JString "2024-05-01T14:30:00.000Z") ]))
    by (vm_compute; reflexivity).
  split; [exact H|].
  apply (X3_text_and_decoded_value_agree Json.parse 0 quote_text _).
  - discriminate.
  - exact H.
  - reflexivity.
  - reflexivity.
Defined.

Lemma X4_witness :
  exists p,
    parseAgentResponse Json.parse 0 (JObject wrapped_payload) = Some p
    /\ map JString (p_bulletPoints p) = [JString "a"; JString "b"].
Proof.
  destruct (X4_bullet_points_are_the_texts Json.parse 0 wrapped_payload)
    as (p & Hp & Harray & _).
  exists p. split; [exact Hp|].
  exact (proj1 (Harray [JString "a"; JNumber (3 # 1); JString "b"; JNull] eq_refl)).
Defined.

Lemma X6_witness :
  let st' := fst (pollForNewResults Json.parse (Resolved (page [e2; e1] 2))
                    (env_at 1714573920000 "c") after_first_tick) in
  lastLogIdRef after_first_tick = Some "e1"
  /\ feed st' = [make_entry "c" quote_parsed scheduled]
  /\ lastLogIdRef st' = Some "e2"
  /\ lastUpdated st' = Some "2024-05-01T14:32:00.000Z"
  /\ logs st' = [e2; e1] /\ logsTotal st' = 2.
Proof.
  intros st'. split; [reflexivity|].
  assert (Hid : log_id e2 <> "") by discriminate.
  assert (Hne : "e1" <> log_id e2) by discriminate.
  assert (Hp : parseAgentResponse Json.parse
                 (parse_clock (env_at 1714573920000 "c")) (response_output e2)
               = Some quote_parsed) by (vm_compute; reflexivity).
  assert (Hnew : ~ In (p_timestamp quote_parsed, p_currentPrice quote_parsed)
                      (map dedup_key (feed after_first_tick))) by (intros []).
  exact (X6_new_execution_is_inserted Json.parse (env_at 1714573920000 "c")
           after_first_tick (page [e2; e1] 2) e2 [e1] "e1" quote_parsed
           eq_refl eq_refl Hid eq_refl Hne eq_refl eq_refl Hp Hnew).
Defined.

Lemma X7_witness :
  let st' := fst (pollForNewResults Json.parse (Resolved (page [e2; e1] 2))
                    (scrolled_env 1714573920000 "c") after_manual_run) in
  map dedup_key (feed after_manual_run)
  = [("2024-05-01T14:30:00.000Z", "$421.35")]
  /\ newUpdateBanner after_manual_run = false
  /\ feed st' = feed after_manual_run
  /\ lastUpdated st' = Some "2024-05-01T14:32:00.000Z"
  /\ newUpdateBanner st' = true.
Proof.
  intros st'. split; [vm_compute; reflexivity|]. split; [reflexivity|].
  assert (Hid : log_id e2 <> "") by discriminate.
  assert (Hne : "e1" <> log_id e2) by discriminate.
  assert (Hp : parseAgentResponse Json.parse
                 (parse_clock (scrolled_env 1714573920000 "c")) (response_output e2)
               = Some quote_parsed) by (vm_compute; reflexivity).
  assert (Hin : In (p_timestamp quote_parsed, p_currentPrice quote_parsed)
                   (map dedup_key (feed after_manual_run)))
    by (left; reflexivity).
  destruct (X7_duplicate_result_still_counts_as_update Json.parse
              (scrolled_env 1714573920000 "c") after_manual_run
              (page [e2; e1] 2) e2 [e1] "e1" quote_parsed
              eq_refl eq_refl Hid eq_refl Hne eq_refl eq_refl Hp Hin)
    as (Hfeed & Hupdated & Hbanner).
  split; [exact Hfeed|]. split; [exact Hupdated|].
  apply (Hbanner (250 # 1)); reflexivity.
Defined.

Lemma X8_witness :
  let st' := fst (pollForNewResults Json.parse (Resolved (page [e2_failed; e1] 2))
                    (env_at 1714573920000 "c") after_first_tick) in
  feed st' = [] /\ lastUpdated st' = None
  /\ lastLogIdRef st' = Some "e2"
  /\ logs st' = [e2_failed; e1]
  /\ fst (pollForNewResults Json.parse (Resolved (page [e2_failed] 2))
            (env_at 1714573980000 "d") st') = st'.
Proof.
  intros st'.
  assert (Hid : log_id e2_failed <> "") by discriminate.
  assert (Hne : "e1" <> log_id e2_failed) by discriminate.
  destruct (X8_failed_execution_is_skipped Json.parse (env_at 1714573920000 "c")
              after_first_tick (page [e2_failed; e1] 2) e2_failed [e1] "e1"
              eq_refl eq_refl Hid eq_refl Hne (or_introl eq_refl))
    as (Hfeed & Hupdated & Hseen & Hlogs & Hlater).
  split; [exact Hfeed|]. split; [exact Hupdated|]. split; [exact Hseen|].
  split; [exact Hlogs|].
  exact (Hlater (page [e2_failed] 2) [] (env_at 1714573980000 "d") eq_refl).
Defined.

Lemma X9_witness :
  feed (fst (pollForNewResults Json.parse (Resolved (page [e2; e1] 2))
               (env_at 1714573920000 "c") after_first_tick))
  = feed (fst (pollForNewResults Json.parse (Resolved (page [e2] 7))
                 (env_at 1714573920000 "c") after_first_tick)).
Proof.
  exact (proj1 (X9_only_the_latest_entry_is_examined Json.parse
                  (env_at 1714573920000 "c") after_first_tick
                  (page [e2; e1] 2) (page [e2] 7) e2 [e1] []
                  eq_refl eq_refl eq_refl eq_refl)).
Defined.

Lemma after_manual_run_reachable : reachable Json.parse after_manual_run.
Proof. eexists. reflexivity. Qed.

Lemma X11_witness :
  lastUpdated after_manual_run <> None /\ feed after_manual_run <> [].
Proof.
  assert (Hfeed : feed after_manual_run <> []) by (vm_compute; discriminate).
  split; [|exact Hfeed].
  intros H. apply Hfeed.
  exact (proj1 (X11_last_updated_iff_feed_not_empty Json.parse after_manual_run
                  after_manual_run_reachable) H).
Defined.

Lemma listed_state_reachable :
  reachable Json.parse (run Json.parse initial_state [StatusLoaded (listing true)]).
Proof. eexists. reflexivity. Qed.

Lemma X12_witness :
  let st := run Json.parse initial_state [StatusLoaded (listing true)] in
  scheduleActive st = option_map is_active (scheduleData st)
  /\ scheduleActive st = Some true.
Proof.
  intros st. split; [|reflexivity].
  exact (X12_cached_flag_matches_cached_schedule Json.parse st
           listed_state_reachable).
Defined.

Lemma X13_witness :
  let st := run Json.parse initial_state [StatusLoaded (listing true)] in
  toggle_disabled st = false
  /\ exists data,
       scheduleData st = Some data
       /\ filter is_toggle_call
            (snd (handleToggleSchedule (Resolved {| ack_success := true |})
                    (listing false) st))
          = [if switch_checked st then PauseSchedule (sched_id data)
             else ResumeSchedule (sched_id data)].
Proof.
  intros st. split; [reflexivity|].
  destruct (X13_enabled_switch_issues_one_call Json.parse st
              (Resolved {| ack_success := true |}) (listing false)
              listed_state_reachable eq_refl) as (data & Hdata & Hcalls & _).
  exists data. split; assumption.
Defined.

Lemma X14_witness :
  newUpdateBanner
    (step Json.parse after_manual_run
       (ManualRun (Resolved quote_answer) (scrolled_env 1714573980000 "d")))
  = newUpdateBanner after_manual_run.
Proof.
  exact (proj2 (proj2 (X14_banner_raised_by_ticks_only Json.parse after_manual_run
                         (ManualRun (Resolved quote_answer)
                            (scrolled_env 1714573980000 "d"))))
           _ _ eq_refl).
Defined.

Lemma X15_witness :
  lastLogIdRef after_manual_run <> Some ""
  /\ lastLogIdRef (run Json.parse after_manual_run
                     [PollTick (Rejected ThrownOther) (env_at 1714573980000 "d");
                      SampleSwitch]) <> None.
Proof.
  destruct (X15_last_seen_id_discipline Json.parse) as (_ & Hid & Hknown).
  split.
  - exact (Hid after_manual_run after_manual_run_reachable).
  - apply Hknown. discriminate.
Defined.

Lemma X16_witness :
  feed_deduplicated
    (feed (run Json.parse initial_state
             [ PollTick (Resolved (page [e1] 1)) (env_at 1714573800000 "a");
               PollTick (Resolved (page [e2; e1] 2)) (env_at 1714573860000 "b");
               StatusLoaded (listing true);
               PollTick (Resolved (page [log_entry "e3" true (JString quote_text); e2] 3))
                 (env_at 1714573920000 "c") ])).
Proof.
  apply (X16_sessions_without_manual_run_are_deduplicated Json.parse).
  - reflexivity.
  - constructor.
Defined.

Lemma X17_witness :
  select_schedule [other_schedule; tracked true; tracked false]
  = Some (tracked true).
Proof.
  apply (proj1 (proj2 (proj2 (X17_selected_schedule
                                [other_schedule; tracked true; tracked false])))
           [other_schedule] (tracked true) [tracked false]).
  - reflexivity.
  - reflexivity.
  - intros s' [<- | []]. discriminate.
Defined.

Lemma X18_witness :
  let st1 := fst (loadScheduleStatus
                    (Resolved {| list_success := true;
                                 schedules := Some [other_schedule] |})
                    initial_state) in
  filter is_toggle_call
    (snd (handleToggleSchedule (Rejected ThrownOther) (listing true) st1))
  = [ResumeSchedule "5f0c1d2e3a4b5c6d7e8f9a0b"].
Proof.
  intros st1.
  assert (Hnone : forall s, In s [other_schedule] -> sched_id s <> SCHEDULE_ID).
  { intros s [<- | []]. discriminate. }
  exact (proj1 (proj2 (proj2
           (X18_toggle_acts_on_the_cached_schedule initial_state other_schedule []
              (Rejected ThrownOther) (listing true) Hnone)))).
Defined.

Lemma X20_witness :
  let st' := fst (runAnalysis Json.parse (Resolved quote_answer)
                    (env_at 1714573860000 "b") after_first_tick) in
  exists p,
    parseAgentResponse Json.parse 1714573860000
      (js_get (response quote_answer) "result") = Some p
    /\ feed st' = [make_entry "b" p manual]
    /\ analysisError st' = None.
Proof.
  intros st'. eexists. split; [reflexivity|].
  destruct (X20_successful_manual_run Json.parse quote_answer
              (env_at 1714573860000 "b") after_first_tick _ eq_refl eq_refl)
    as (Hfeed & _ & Herror & _).
  split; [exact Hfeed | exact Herror].
Defined.

Lemma X21_witness :
  relativeTime IsoText.getTime 1714573800000 "yesterday" = "NaNd ago"
  /\ relativeTime IsoText.getTime 1714573800000 "2024-05-01T14:30:00.500Z"
     = "just now".
Proof.
  destruct (X21_relative_time_edges IsoText.getTime 1714573800000)
    as (_ & Hnan & Hfuture).
  split.
  - apply Hnan; [discriminate | reflexivity].
  - apply (Hfuture _ 1714573800500); [discriminate | vm_compute; reflexivity | lia].
Defined.

Lemma X22_witness :
  IsoText.getTime "2024-05-01T14:28:00.000Z" = Some 1714573680000
  /\ relativeTime IsoText.getTime 1714573800000 "2024-05-01T14:28:00.000Z"
     = "2m ago".
Proof.
  assert (Ht : IsoText.getTime "2024-05-01T14:28:00.000Z" = Some 1714573680000)
    by (vm_compute; reflexivity).
  split; [exact Ht|].
  assert (Hne : "2024-05-01T14:28:00.000Z" <> "") by discriminate.
  assert (Hle : 1714573680000 <= 1714573800000) by lia.
  destruct (X22_relative_time_counts_whole_units IsoText.getTime 1714573800000
              "2024-05-01T14:28:00.000Z" 1714573680000 Hne Ht Hle)
    as [[Hd _] | [[_ H] | [[Hd _] | [Hd _]]]];
    [exfalso; revert Hd; lia | exact H | exfalso; revert Hd; lia
     | exfalso; revert Hd; lia].
Defined.

Lemma X23_witness :
  map (fun e => relativeTime IsoText.getTime 1714573800500 (timestamp e))
    (getSampleData 1714573800000)
  = ["2m ago"; "12m ago"; "22m ago"].
Proof.
  apply (X23_sample_records_read_2_12_22_minutes IsoText.getTime
           1714573800000 1714573800500).
  - intros t [<- | [<- | [<- | []]]]; vm_compute; reflexivity.
  - lia.
Defined.

Lemma X24_witness :
  exists p,
    parseAgentResponse Json.parse 0 (JObject wrapped_payload) = Some p
    /\ p_timestamp p = "yesterday"
    /\ relativeTime IsoText.getTime 1714573800000 (p_timestamp p) = "NaNd ago".
Proof.
  apply (X24_timestamp_that_is_no_date Json.parse IsoText.getTime 0 1714573800000
           wrapped_payload "yesterday").
  - reflexivity.
  - discriminate.
  - reflexivity.
Defined.

Lemma X25_witness :
  DirectionChip_label (direction sideways_entry) = "Neutral"
  /\ DirectionIcon_color (direction sideways_entry) = "#7f8694"
  /\ AnalysisCard_change_color sideways_entry = "#7f8694".
Proof.
  destruct (X25_direction_colours_agree sideways_entry)
    as (_ & _ & Hother & Hicon & Hcard & _ & Hlabel & _).
  assert (Hcolor : DirectionChip_color (direction sideways_entry) = "#7f8694").
  { apply Hother; discriminate. }
  split; [exact (proj2 Hlabel Hcolor)|]. split.
  - rewrite Hicon. exact Hcolor.
  - rewrite Hcard. exact Hcolor.
Defined.

Lemma X26_witness :
  logs (fst (loadLogs (Resolved (page [] 0)) after_manual_run)) = []
  /\ logs (fst (pollForNewResults Json.parse (Resolved (page [] 0))
                  (env_at 1714573980000 "d")
                  (fst (loadLogs (Resolved (page [e2; e1] 2)) after_manual_run))))
     = [e2; e1].
Proof.
  destruct (X26_log_view_load Json.parse after_manual_run) as (Hload & _ & _ & _).
  destruct (X26_log_view_load Json.parse
              (fst (loadLogs (Resolved (page [e2; e1] 2)) after_manual_run)))
    as (_ & _ & _ & Hpoll).
  split.
  - exact (proj1 (Hload (page [] 0) [] eq_refl eq_refl)).
  - exact (proj1 (Hpoll (page [] 0) (env_at 1714573980000 "d") eq_refl)).
Defined.
